(** * Mesh cleanup API (mesh_cleanup_api/main.py)

    A shallow embedding of the two FastAPI handlers [/clean-mesh] and
    [/clean-point-cloud] and of the three stage functions they call.  The
    handlers are modelled as computations over an explicit state: the file
    system, a trace of the file-system operations and geometry-library calls
    made so far, and the two locals ([input_path], [output_path]) that the
    [finally] block of each handler reads.

    Open3D and the Python runtime (tempfile naming, pathlib's stem, I/O
    faults) are not part of the repository: they are taken as an interface
    ([Open3D], [Runtime]); what the theorems need of them is stated as
    explicit laws ([filters_select], [mask_removes], [tmp_fresh],
    [skips_empty_cloud], [lacks_fill_holes]).  The densities of the Poisson
    reconstruction are IEEE 754 binary64 floats, and NumPy's quantile and
    comparison are computed on them as NumPy does, rounding included.

    The client script (mesh_cleanup_api/test_api.py) is modelled over its own
    files and output, with [requests] as an interface ([Requests]). *)

From Stdlib Require Import QArith Qround Ascii SpecFloat Sorted.
From stdpp Require Import base strings list gmap pretty.

Local Open Scope nat_scope.
Local Open Scope string_scope.

(** ** Python string primitives used by the handlers *)

Module Py.

(** [s.endswith(suffix)] *)
Definition endswith (s suffix : string) : bool :=
  Nat.leb (String.length suffix) (String.length s) &&
  String.eqb
    (String.substring (String.length s - String.length suffix)
                      (String.length suffix) s)
    suffix.

(** [s.replace(old, new)] for a non-empty [old]: every non-overlapping
    occurrence, scanning from the left.  [skip] counts the characters of an
    occurrence that has just been replaced and are still to be dropped. *)
Fixpoint replace_from (old new : string) (skip : nat) (s : string) : string :=
  match s with
  | EmptyString => EmptyString
  | String c s' =>
      match skip with
      | S k => replace_from old new k s'
      | O =>
          if String.prefix old s
          then new +:+ replace_from old new (String.length old - 1) s'
          else String c (replace_from old new 0 s')
      end
  end.

(** With an empty [old], Python inserts [new] before every character and
    at the end. *)
Fixpoint intersperse_all (new s : string) : string :=
  match s with
  | EmptyString => new
  | String c s' => new +:+ String c (intersperse_all new s')
  end.

Definition replace (s old new : string) : string :=
  match old with
  | EmptyString => intersperse_all new s
  | _ => replace_from old new 0 s
  end.

(** [x in xs] for a list of strings *)
Definition str_in (x : string) (xs : list string) : bool :=
  existsb (String.eqb x) xs.

(** [f"{n}"] for a non-negative [int] *)
Definition str_of_nat (n : nat) : string := pretty n.

(** [sub in s] for strings *)
Fixpoint contains (s sub : string) : bool :=
  String.prefix sub s ||
  match s with
  | EmptyString => false
  | String _ s' => contains s' sub
  end.

End Py.

(** ** Exceptions and outcomes *)

(** The two kinds of exception the handlers distinguish: FastAPI's
    [HTTPException] (itself a subclass of [Exception]) and any other
    [Exception] raised by the runtime or the geometry library.  What
    [except Exception] does not catch (a [BaseException] such as
    [asyncio.CancelledError] or [KeyboardInterrupt]) is outside the model:
    the statements are about requests that are not cancelled. *)
Inductive exn : Type :=
| HTTPException (status_code : Z) (detail : string)
| Exception (message : string).

(** [str(e)]: Starlette's [HTTPException.__str__] is
    [f"{status_code}: {detail}"]; other exceptions print their message. *)
Definition str (e : exn) : string :=
  match e with
  | HTTPException sc d => pretty sc +:+ ": " +:+ d
  | Exception m => m
  end.

Inductive outcome (A : Type) : Type :=
| Normal (a : A)
| Raised (e : exn).
Arguments Normal {A} a.
Arguments Raised {A} e.

(** ** Data model *)

Definition bytes := list Byte.byte.

Definition Point : Type := Q * Q * Q.

Record PointCloud : Type := mkPointCloud {
  points : list Point;
  normals : list Point
}.

Record TriangleMesh : Type := mkTriangleMesh {
  vertices : list Point;
  triangles : list (nat * nat * nat)
}.

Record Request : Type := mkRequest {
  filename : string;               (* file.filename *)
  content : bytes;                 (* the uploaded body *)
  return_format : option string    (* the query parameter, None when omitted *)
}.

(** [FileResponse(path, media_type=..., filename=...)]; its status is 200. *)
Record Response : Type := FileResponse {
  path : string;
  media_type : string;
  download_name : string
}.

(** ** Effects: file system and trace *)

Inductive event : Type :=
| EvCreate (p : string)                     (* NamedTemporaryFile creates p *)
| EvWrite (p : string)                      (* bytes written to p *)
| EvUnlink (p : string)                     (* os.unlink(p) *)
| EvReadPointCloud (p : string)             (* o3d.io.read_point_cloud *)
| EvStatisticalOutlier (nb_neighbors : nat) (std_ratio : Q)
| EvRadiusOutlier (nb_points : nat) (radius : Q)
| EvEstimateNormals (radius : Q) (max_nn : nat)
| EvOrientNormals (k : nat)
| EvPoisson (depth width : nat) (scale : Q) (linear_fit : bool)
| EvRemoveVerticesByMask (mask : list bool)
| EvRemoveDegenerateTriangles
| EvRemoveDuplicatedTriangles
| EvRemoveDuplicatedVertices
| EvRemoveNonManifoldEdges
| EvFilterSmoothSimple (number_of_iterations : nat)
| EvFillHoles
| EvWriteTriangleMesh (p : string) (mesh : TriangleMesh)
| EvWritePointCloud (p : string) (pcd : PointCloud).

Record St : Type := mkSt {
  fs : gmap string bytes;          (* path -> file content *)
  trace : list event;              (* oldest first *)
  input_path : option string;      (* the handler's local, None as in Python *)
  output_path : option string
}.

Definition M (A : Type) : Type := St -> outcome A * St.

Definition ret {A} (a : A) : M A := fun s => (Normal a, s).
Definition raise {A} (e : exn) : M A := fun s => (Raised e, s).
Definition bind {A B} (m : M A) (k : A -> M B) : M B :=
  fun s => match m s with
           | (Normal a, s') => k a s'
           | (Raised e, s') => (Raised e, s')
           end.

Notation "'do' x <- m ;; k" := (bind m (fun x => k))
  (at level 10, x name, m at level 99, k at level 200).
Notation "'do_' m ;; k" := (bind m (fun _ => k))
  (at level 10, m at level 99, k at level 200).

(** [try: body / except Exception as e: handler(e)] *)
Definition try_except {A} (body : M A) (handler : exn -> M A) : M A :=
  fun s => match body s with
           | (Normal a, s') => (Normal a, s')
           | (Raised e, s') => handler e s'
           end.

(** [try: body / finally: final]; an exception raised by [final] replaces
    the outcome of [body]. *)
Definition try_finally {A} (body : M A) (final : M unit) : M A :=
  fun s => match body s with
           | (r, s') =>
               match final s' with
               | (Normal _, s'') => (r, s'')
               | (Raised e, s'') => (Raised e, s'')
               end
           end.

Definition log (e : event) : M unit :=
  fun s => (Normal tt, mkSt (fs s) (trace s ++ [e]) (input_path s) (output_path s)).

Definition lift {A} (r : outcome A) : M A := fun s => (r, s).

Definition get_input_path : M (option string) := fun s => (Normal (input_path s), s).
Definition set_input_path (p : option string) : M unit :=
  fun s => (Normal tt, mkSt (fs s) (trace s) p (output_path s)).
Definition set_output_path (p : option string) : M unit :=
  fun s => (Normal tt, mkSt (fs s) (trace s) (input_path s) p).

Definition fs_put (p : string) (b : bytes) : M unit :=
  fun s => (Normal tt, mkSt (<[p := b]> (fs s)) (trace s) (input_path s) (output_path s)).

(** [os.path.exists(p)] *)
Definition os_path_exists (p : string) : M bool :=
  fun s => (Normal (bool_decide (is_Some (fs s !! p))), s).

(** [os.unlink(p)]: raises [FileNotFoundError] when there is no such file.
    Other failures of the operating system (permissions, I/O errors) are
    outside the model. *)
Definition os_unlink (p : string) : M unit :=
  fun s => match fs s !! p with
           | Some _ =>
               (Normal tt,
                mkSt (delete p (fs s)) (trace s ++ [EvUnlink p]) (input_path s) (output_path s))
           | None => (Raised (Exception "FileNotFoundError"), s)
           end.

(** ** IEEE 754 binary64, the [float64] of NumPy

    The operations are those of the standard library's specification of
    floating-point arithmetic, at precision 53 and maximal exponent 1024. *)

Definition float64 : Type := spec_float.

Module F64.

Definition prec : Z := 53.
Definition emax : Z := 1024.

Definition add : float64 -> float64 -> float64 := SFadd prec emax.
Definition sub : float64 -> float64 -> float64 := SFsub prec emax.
Definition mul : float64 -> float64 -> float64 := SFmul prec emax.
Definition lt : float64 -> float64 -> bool := SFltb.
Definition le : float64 -> float64 -> bool := SFleb.
Definition eqb : float64 -> float64 -> bool := SFeqb.

Definition nan : float64 := S754_nan.

Definition isnan (x : float64) : bool :=
  match x with
  | S754_nan => true
  | _ => false
  end.

(** An integer as a float, rounded to nearest, ties to even. *)
Definition of_Z (n : Z) : float64 := binary_normalize prec emax n 0 false.

(** [floor] of a finite float, as an integer (0 for what is not finite). *)
Definition floor (x : float64) : Z :=
  match x with
  | S754_finite s m e => Z.shiftl (cond_Zopp s (Z.pos m)) e
  | _ => 0%Z
  end.

(** The literals [0.01], [0.5] and [1.0]: the binary64 values nearest to
    them. *)
Definition c0_01 : float64 := S754_finite false 5764607523034235 (-59).
Definition c0_5 : float64 := S754_finite false 4503599627370496 (-53).
Definition c1 : float64 := S754_finite false 4503599627370496 (-52).

End F64.

(** ** NumPy: the two array operations of the density filter *)

Module Np.

Fixpoint insert_sorted (x : float64) (l : list float64) : list float64 :=
  match l with
  | [] => [x]
  | y :: l' => if F64.le x y then x :: l else y :: insert_sorted x l'
  end.

Definition sort (l : list float64) : list float64 := foldr insert_sorted [] l.

(** NumPy's [_lerp(a, b, t)]: [a + (b - a) * t], and
    [b - (b - a) * (1 - t)] where [t >= 0.5]. *)
Definition lerp (a b t : float64) : float64 :=
  let diff_b_a := F64.sub b a in
  if F64.le F64.c0_5 t then F64.sub b (F64.mul diff_b_a (F64.sub F64.c1 t))
  else F64.add a (F64.mul diff_b_a t).

(** [np.quantile(a, q)] on a float64 array with NumPy's default method:
    the virtual index [(n - 1) * q], the two ranks around it in the sorted
    array (both the last one when there is no rank above), and [_lerp]
    between them by the fractional part; NaN when the array holds a NaN.
    Entries that compare equal (the two zeros) may be ranked either way,
    which no comparison with the result can tell.  The handler calls it on
    a non-empty array only. *)
Definition quantile (a : list float64) (q : float64) : float64 :=
  let n := length a in
  let virtual_index := F64.mul (F64.of_Z (Z.of_nat (n - 1))) q in
  let previous_index := Z.to_nat (F64.floor virtual_index) in
  let next_index := Nat.min (previous_index + 1) (n - 1) in
  let gamma := F64.sub virtual_index (F64.of_Z (Z.of_nat previous_index)) in
  let sorted := sort a in
  if existsb F64.isnan a then F64.nan
  else lerp (nth previous_index sorted F64.nan) (nth next_index sorted F64.nan) gamma.

(** [a < t]: the elementwise comparison of an array with a scalar *)
Definition less (a : list float64) (t : float64) : list bool :=
  map (fun x => F64.lt x t) a.

End Np.

(** ** What the handlers take from outside the repository *)

(** The Python runtime around a request. *)
Record Runtime : Type := mkRuntime {
  (** tempfile: the directory, prefix and random part of the next name *)
  tmp_base : gmap string bytes -> string;
  (** [await file.read()] raises *)
  read_fault : option exn;
  (** [tmp_input.write(content)] raises *)
  write_fault : option exn;
  (** [Path(name).stem] *)
  stem : string -> string
}.

(** The Open3D calls of main.py.  Methods that mutate their receiver return
    the mutated object.  A writer yields the bytes that reach the file (if
    any) and what the call returns or raises. *)
Record Open3D : Type := mkOpen3D {
  read_point_cloud : option bytes -> outcome PointCloud;
  remove_statistical_outlier : PointCloud -> nat -> Q -> PointCloud * list nat;
  remove_radius_outlier : PointCloud -> nat -> Q -> PointCloud * list nat;
  estimate_normals : PointCloud -> Q -> nat -> outcome PointCloud;
  orient_normals_consistent_tangent_plane : PointCloud -> nat -> outcome PointCloud;
  create_from_point_cloud_poisson :
    PointCloud -> nat -> nat -> Q -> bool -> outcome (TriangleMesh * list float64);
  remove_vertices_by_mask : TriangleMesh -> list bool -> outcome TriangleMesh;
  remove_degenerate_triangles : TriangleMesh -> outcome TriangleMesh;
  remove_duplicated_triangles : TriangleMesh -> outcome TriangleMesh;
  remove_duplicated_vertices : TriangleMesh -> outcome TriangleMesh;
  remove_non_manifold_edges : TriangleMesh -> outcome TriangleMesh;
  filter_smooth_simple : TriangleMesh -> nat -> outcome TriangleMesh;
  fill_holes : TriangleMesh -> outcome TriangleMesh;
  write_triangle_mesh : string -> TriangleMesh -> option bytes * outcome bool;
  write_point_cloud : string -> PointCloud -> option bytes * outcome bool
}.

(** The vertices a mask leaves: those whose flag is [false]. *)
Fixpoint unmasked {A} (l : list A) (mask : list bool) : list A :=
  match l, mask with
  | x :: l', b :: mask' => if b then unmasked l' mask' else x :: unmasked l' mask'
  | _, _ => []
  end.

(** What Open3D documents of its outlier filters: each returns a selection
    of the points it was given, in their order. *)
Definition filters_select (o3d : Open3D) : Prop :=
  forall pcd nb r,
    points (remove_statistical_outlier o3d pcd nb r).1 `sublist_of` points pcd /\
    points (remove_radius_outlier o3d pcd nb r).1 `sublist_of` points pcd.

(** What Open3D documents of [remove_vertices_by_mask]: given one flag per
    vertex, it removes the flagged vertices and keeps the others in order. *)
Definition mask_removes (o3d : Open3D) : Prop :=
  forall mesh mask,
    length mask = length (vertices mesh) ->
    exists mesh', remove_vertices_by_mask o3d mesh mask = Normal mesh' /\
                  vertices mesh' = unmasked (vertices mesh) mask.

(** tempfile picks a name that no existing file has. *)
Definition tmp_fresh (rt : Runtime) (s : St) : Prop :=
  fs s !! (tmp_base rt (fs s) +:+ ".ply") = None.

(** ** What the client sees *)

(** The status of the response: the status code of a raised
    [HTTPException]; 500 for any other exception that leaves the handler;
    for a returned [FileResponse], 200 when the file is there to be sent and
    500 when it is not (Starlette raises while sending). *)
Definition http_status (r : outcome Response * St) : Z :=
  match r.1 with
  | Normal resp => if bool_decide (is_Some (fs r.2 !! path resp)) then 200 else 500
  | Raised (HTTPException sc _) => sc
  | Raised (Exception _) => 500
  end.

(** The message of an error response. *)
Definition http_detail (r : outcome Response * St) : string :=
  match r.1 with
  | Normal _ => ""
  | Raised (HTTPException _ d) => d
  | Raised (Exception _) => "Internal Server Error"
  end.

(** ** The program *)

Section Program.

Context (rt : Runtime) (o3d : Open3D).

(** *** Calls into the runtime and into Open3D, with their effects *)

(** [tempfile.NamedTemporaryFile(delete=False, suffix=...)]: creates an
    empty file under a new name and yields the name. *)
Definition NamedTemporaryFile (suffix : string) : M string :=
  fun s =>
    let p := tmp_base rt (fs s) +:+ suffix in
    (Normal p,
     mkSt (<[p := []]> (fs s)) (trace s ++ [EvCreate p]) (input_path s) (output_path s)).

(** [await file.read()] *)
Definition file_read (req : Request) : M bytes :=
  match read_fault rt with
  | Some e => raise e
  | None => ret (content req)
  end.

(** [tmp_input.write(content)] *)
Definition tmp_write (p : string) (b : bytes) : M unit :=
  match write_fault rt with
  | Some e => raise e
  | None => do_ log (EvWrite p) ;; fs_put p b
  end.

(** [o3d.io.read_point_cloud(p)] *)
Definition io_read_point_cloud (p : string) : M PointCloud :=
  do_ log (EvReadPointCloud p) ;;
  fun s => (read_point_cloud o3d (fs s !! p), s).

Definition pcd_remove_statistical_outlier
    (pcd : PointCloud) (nb_neighbors : nat) (std_ratio : Q) : M (PointCloud * list nat) :=
  do_ log (EvStatisticalOutlier nb_neighbors std_ratio) ;;
  ret (remove_statistical_outlier o3d pcd nb_neighbors std_ratio).

Definition pcd_remove_radius_outlier
    (pcd : PointCloud) (nb_points : nat) (radius : Q) : M (PointCloud * list nat) :=
  do_ log (EvRadiusOutlier nb_points radius) ;;
  ret (remove_radius_outlier o3d pcd nb_points radius).

Definition pcd_estimate_normals (pcd : PointCloud) (radius : Q) (max_nn : nat) : M PointCloud :=
  do_ log (EvEstimateNormals radius max_nn) ;;
  lift (estimate_normals o3d pcd radius max_nn).

Definition pcd_orient_normals_consistent_tangent_plane (pcd : PointCloud) (k : nat)
    : M PointCloud :=
  do_ log (EvOrientNormals k) ;;
  lift (orient_normals_consistent_tangent_plane o3d pcd k).

Definition mesh_create_from_point_cloud_poisson
    (pcd : PointCloud) (depth width : nat) (scale : Q) (linear_fit : bool)
    : M (TriangleMesh * list float64) :=
  do_ log (EvPoisson depth width scale linear_fit) ;;
  lift (create_from_point_cloud_poisson o3d pcd depth width scale linear_fit).

Definition mesh_remove_vertices_by_mask (mesh : TriangleMesh) (mask : list bool)
    : M TriangleMesh :=
  do_ log (EvRemoveVerticesByMask mask) ;;
  lift (remove_vertices_by_mask o3d mesh mask).

Definition mesh_call (e : event) (f : TriangleMesh -> outcome TriangleMesh)
    (mesh : TriangleMesh) : M TriangleMesh :=
  do_ log e ;; lift (f mesh).

(** A writer puts what it wrote (if anything) at [p], then returns or
    raises. *)
Definition io_write (e : event) (p : string) (w : option bytes * outcome bool) : M bool :=
  do_ log e ;;
  do_ (match w.1 with
       | Some b => fs_put p b
       | None => ret tt
       end) ;;
  lift w.2.

Definition io_write_triangle_mesh (p : string) (mesh : TriangleMesh) : M bool :=
  io_write (EvWriteTriangleMesh p mesh) p (write_triangle_mesh o3d p mesh).

Definition io_write_point_cloud (p : string) (pcd : PointCloud) : M bool :=
  io_write (EvWritePointCloud p pcd) p (write_point_cloud o3d p pcd).

(** *** main.py *)

(** [clean_point_cloud] (lines 33-54) *)
Definition clean_point_cloud (pcd : PointCloud) : M PointCloud :=
  do r <- pcd_remove_statistical_outlier pcd 20 2.0%Q ;;
  let '(pcd, statistical_ind) := r in
  do r <- pcd_remove_radius_outlier pcd 16 0.05%Q ;;
  let '(pcd, radius_ind) := r in
  ret pcd.

(** [create_mesh_from_point_cloud] (lines 57-87) *)
Definition create_mesh_from_point_cloud (pcd : PointCloud) : M TriangleMesh :=
  do pcd <- pcd_estimate_normals pcd 0.1%Q 30 ;;
  do pcd <- pcd_orient_normals_consistent_tangent_plane pcd 15 ;;
  do r <- mesh_create_from_point_cloud_poisson pcd 9 0 1.1%Q false ;;
  let '(mesh, densities) := r in
  if Nat.ltb 0 (length densities) then
    let density_threshold := Np.quantile densities F64.c0_01 in
    let vertices_to_remove := Np.less densities density_threshold in
    mesh_remove_vertices_by_mask mesh vertices_to_remove
  else
    ret mesh.

(** [clean_mesh] (lines 90-108) *)
Definition clean_mesh (mesh : TriangleMesh) : M TriangleMesh :=
  do mesh <- mesh_call EvRemoveDegenerateTriangles (remove_degenerate_triangles o3d) mesh ;;
  do mesh <- mesh_call EvRemoveDuplicatedTriangles (remove_duplicated_triangles o3d) mesh ;;
  do mesh <- mesh_call EvRemoveDuplicatedVertices (remove_duplicated_vertices o3d) mesh ;;
  do mesh <- mesh_call EvRemoveNonManifoldEdges (remove_non_manifold_edges o3d) mesh ;;
  do mesh <- mesh_call (EvFilterSmoothSimple 5)
               (fun m => filter_smooth_simple o3d m 5) mesh ;;
  do mesh <- mesh_call EvFillHoles (fill_holes o3d) mesh ;;
  ret mesh.

(** The [finally] block of both handlers (lines 195-198, 252-254):
    [if input_path and os.path.exists(input_path): os.unlink(input_path)] *)
Definition cleanup : M unit :=
  do ip <- get_input_path ;;
  match ip with
  | Some p =>
      if negb (String.eqb p "") then
        do ex <- os_path_exists p ;;
        if ex then os_unlink p else ret tt
      else ret tt
  | None => ret tt
  end.

(** Lines 144-147 and 219-222: the upload is written to a new temporary
    file; [input_path] is assigned last. *)
Definition save_upload (req : Request) : M string :=
  do tmp_input <- NamedTemporaryFile ".ply" ;;
  do content <- file_read req ;;
  do_ tmp_write tmp_input content ;;
  do_ set_input_path (Some tmp_input) ;;
  ret tmp_input.

(** Lines 177-180: the two branches on [return_format]. *)
Definition serialize_mesh (return_format output_path : string) (mesh : TriangleMesh)
    : M bool :=
  if String.eqb return_format "ply" then
    io_write_triangle_mesh output_path mesh
  else
    io_write_triangle_mesh output_path mesh.

(** [clean_mesh_endpoint] (lines 117-200) *)
Definition clean_mesh_endpoint (req : Request) : M Response :=
  let return_format := default "ply" (return_format req) in
  if negb (Py.endswith (filename req) ".ply") then
    raise (HTTPException 400 "Only PLY files are supported")
  else if negb (Py.str_in return_format ["ply"; "obj"]) then
    raise (HTTPException 400 "return_format must be 'ply' or 'obj'")
  else
    do_ set_input_path None ;;
    do_ set_output_path None ;;
    try_finally
      (try_except
         (do input_path <- save_upload req ;;
          do pcd <- io_read_point_cloud input_path ;;
          if Nat.eqb (length (points pcd)) 0 then
            raise (HTTPException 400 "Point cloud is empty")
          else
            do pcd <- clean_point_cloud pcd ;;
            if Nat.ltb (length (points pcd)) 1000 then
              raise (HTTPException 400
                       ("Too few points after cleaning ("
                        +:+ Py.str_of_nat (length (points pcd))
                        +:+ "). Original scan may be too noisy."))
            else
              do mesh <- create_mesh_from_point_cloud pcd ;;
              do mesh <- clean_mesh mesh ;;
              let output_path :=
                Py.replace input_path ".ply" ("_cleaned." +:+ return_format) in
              do_ set_output_path (Some output_path) ;;
              do_ serialize_mesh return_format output_path mesh ;;
              ret (FileResponse output_path "application/octet-stream"
                     (stem rt (filename req) +:+ "_cleaned." +:+ return_format)))
         (fun e => raise (HTTPException 500 ("Error processing mesh: " +:+ str e))))
      cleanup.

(** [clean_point_cloud_endpoint] (lines 203-254) *)
Definition clean_point_cloud_endpoint (req : Request) : M Response :=
  if negb (Py.endswith (filename req) ".ply") then
    raise (HTTPException 400 "Only PLY files are supported")
  else
    do_ set_input_path None ;;
    do_ set_output_path None ;;
    try_finally
      (try_except
         (do input_path <- save_upload req ;;
          do pcd <- io_read_point_cloud input_path ;;
          if Nat.eqb (length (points pcd)) 0 then
            raise (HTTPException 400 "Point cloud is empty")
          else
            do pcd <- clean_point_cloud pcd ;;
            let output_path := Py.replace input_path ".ply" "_cleaned.ply" in
            do_ set_output_path (Some output_path) ;;
            do_ io_write_point_cloud output_path pcd ;;
            ret (FileResponse output_path "application/octet-stream"
                   (stem rt (filename req) +:+ "_cleaned.ply")))
         (fun e => raise (HTTPException 500 ("Error processing point cloud: " +:+ str e))))
      cleanup.

(** *** The specification's reading of [/clean-mesh]

    After validation the format only names the extension of the output
    path and of the download name; serialization is a single call, the
    same for both formats. *)
Definition clean_mesh_endpoint_uniform (req : Request) : M Response :=
  let ext := default "ply" (return_format req) in
  if negb (Py.endswith (filename req) ".ply") then
    raise (HTTPException 400 "Only PLY files are supported")
  else if negb (Py.str_in ext ["ply"; "obj"]) then
    raise (HTTPException 400 "return_format must be 'ply' or 'obj'")
  else
    do_ set_input_path None ;;
    do_ set_output_path None ;;
    try_finally
      (try_except
         (do input_path <- save_upload req ;;
          do pcd <- io_read_point_cloud input_path ;;
          if Nat.eqb (length (points pcd)) 0 then
            raise (HTTPException 400 "Point cloud is empty")
          else
            do pcd <- clean_point_cloud pcd ;;
            if Nat.ltb (length (points pcd)) 1000 then
              raise (HTTPException 400
                       ("Too few points after cleaning ("
                        +:+ Py.str_of_nat (length (points pcd))
                        +:+ "). Original scan may be too noisy."))
            else
              do mesh <- create_mesh_from_point_cloud pcd ;;
              do mesh <- clean_mesh mesh ;;
              let output_path := Py.replace input_path ".ply" ("_cleaned." +:+ ext) in
              do_ set_output_path (Some output_path) ;;
              do_ io_write_triangle_mesh output_path mesh ;;
              ret (FileResponse output_path "application/octet-stream"
                     (stem rt (filename req) +:+ "_cleaned." +:+ ext)))
         (fun e => raise (HTTPException 500 ("Error processing mesh: " +:+ str e))))
      cleanup.

End Program.

(** ** An executable stand-in for the runtime and for Open3D

    Used to run the handlers on concrete requests.  The codec is a toy one
    (one byte per point, on the x axis); the radius filter is Open3D's rule in
    exact arithmetic; the statistical filter applies the first of Open3D's
    two tests only (the mean distance to the nearest neighbours, the point
    itself included, must be positive), the second one needing square roots.
    The density of a vertex is its x coordinate, and [fill_holes] raises the
    [AttributeError] it raises on Open3D's [TriangleMesh]. *)

Module Fake.

Definition byte_point (b : Byte.byte) : Point :=
  (inject_Z (Z.of_N (Byte.to_N b)), 0%Q, 0%Q).

Definition decode (b : bytes) : PointCloud := mkPointCloud (map byte_point b) [].

Definition point_byte (p : Point) : Byte.byte :=
  default Byte.x00 (Byte.of_N (Z.to_N (Qfloor p.1.1 mod 256))).

Definition encode (l : list Point) : bytes := map point_byte l.

Definition coincide (p q : Point) : bool :=
  Qeq_bool p.1.1 q.1.1 && Qeq_bool p.1.2 q.1.2 && Qeq_bool p.2 q.2.

Definition sqdist (p q : Point) : Q :=
  ((p.1.1 - q.1.1) * (p.1.1 - q.1.1) + (p.1.2 - q.1.2) * (p.1.2 - q.1.2)
   + (p.2 - q.2) * (p.2 - q.2))%Q.

Definition count (f : Point -> bool) (l : list Point) : nat :=
  length (List.filter f l).

Definition keep_statistical (pts : list Point) (nb_neighbors : nat) (p : Point) : bool :=
  Nat.ltb (count (coincide p) pts) (Nat.min nb_neighbors (length pts)).

Definition keep_radius (pts : list Point) (nb_points : nat) (radius : Q) (p : Point) : bool :=
  Nat.ltb nb_points (count (fun q => Qle_bool (sqdist p q) (radius * radius)) pts).

Fixpoint indices_from (i : nat) (keep : Point -> bool) (l : list Point) : list nat :=
  match l with
  | [] => []
  | p :: l' => if keep p then i :: indices_from (S i) keep l' else indices_from (S i) keep l'
  end.

Definition select (keep : Point -> bool) (pcd : PointCloud) : PointCloud * list nat :=
  (mkPointCloud (List.filter keep (points pcd)) [], indices_from 0 keep (points pcd)).

(** The new index of vertex [i] once the flagged vertices are gone. *)
Definition new_index (mask : list bool) (i : nat) : option nat :=
  match mask !! i with
  | Some false => Some (length (List.filter negb (take i mask)))
  | _ => None
  end.

Definition reindex (mask : list bool) (t : nat * nat * nat) : option (nat * nat * nat) :=
  match new_index mask t.1.1, new_index mask t.1.2, new_index mask t.2 with
  | Some a, Some b, Some c => Some (a, b, c)
  | _, _, _ => None
  end.

Definition by_mask (mesh : TriangleMesh) (mask : list bool) : outcome TriangleMesh :=
  if Nat.eqb (length mask) (length (vertices mesh)) then
    Normal (mkTriangleMesh (unmasked (vertices mesh) mask)
                           (omap (reindex mask) (triangles mesh)))
  else Raised (Exception "vertex_mask has a different size than vertices_").

(** The stand-in, for a given pair of outlier filters. *)
Definition make
    (statistical radius : PointCloud -> nat -> Q -> PointCloud * list nat) : Open3D := {|
  read_point_cloud := fun b =>
    Normal (match b with Some b => decode b | None => mkPointCloud [] [] end);
  remove_statistical_outlier := statistical;
  remove_radius_outlier := radius;
  estimate_normals := fun pcd _ _ =>
    Normal (mkPointCloud (points pcd) (map (fun _ => (0%Q, 0%Q, 1%Q)) (points pcd)));
  orient_normals_consistent_tangent_plane := fun pcd _ => Normal pcd;
  create_from_point_cloud_poisson := fun pcd _ _ _ _ =>
    Normal (mkTriangleMesh (points pcd) [],
            map (fun p : Point => F64.of_Z (Qfloor p.1.1)) (points pcd));
  remove_vertices_by_mask := by_mask;
  remove_degenerate_triangles := Normal;
  remove_duplicated_triangles := Normal;
  remove_duplicated_vertices := Normal;
  remove_non_manifold_edges := Normal;
  filter_smooth_simple := fun mesh _ => Normal mesh;
  fill_holes := fun _ =>
    Raised (Exception
              "'open3d.cpu.pybind.geometry.TriangleMesh' object has no attribute 'fill_holes'");
  write_triangle_mesh := fun _ mesh => (Some (encode (vertices mesh)), Normal true);
  write_point_cloud := fun _ pcd =>
    match points pcd with
    | [] => (None, Normal false)
    | _ => (Some (encode (points pcd)), Normal true)
    end
|}.

(** With the filters described above. *)
Definition o3d : Open3D :=
  make (fun pcd nb _ => select (keep_statistical (points pcd) nb) pcd)
       (fun pcd nb r => select (keep_radius (points pcd) nb r) pcd).

(** With filters that find no outlier. *)
Definition o3d_lenient : Open3D :=
  make (fun pcd _ _ => select (fun _ => true) pcd)
       (fun pcd _ _ => select (fun _ => true) pcd).

Fixpoint has_dot (s : string) : bool :=
  match s with
  | EmptyString => false
  | String c rest => Ascii.eqb c "."%char || has_dot rest
  end.

(** The name up to its last dot (the plain case of pathlib's [stem]). *)
Fixpoint simple_stem (name : string) : string :=
  match name with
  | EmptyString => EmptyString
  | String c rest =>
      if String.eqb rest "" then name
      else if has_dot rest
           then String c (simple_stem rest)
           else if Ascii.eqb c "."%char then EmptyString else name
  end.

Definition rt : Runtime := mkRuntime (fun _ => "/tmp/tmpk3x9w2ab") None None simple_stem.

(** The same runtime on a full disk: writing the upload raises. *)
Definition rt_disk_full : Runtime :=
  mkRuntime (fun _ => "/tmp/tmpk3x9w2ab") None
            (Some (Exception "[Errno 28] No space left on device")) simple_stem.

Definition s0 : St := mkSt ∅ [] None None.

End Fake.

(** ** The client script (mesh_cleanup_api/test_api.py) *)

(** What [requests] hands back: [response.status_code] and
    [response.content]. *)
Record HTTPResponse : Type := mkHTTPResponse {
  response_status_code : Z;
  response_content : bytes
}.

(** What the script takes from outside the repository. *)
Record Requests : Type := mkRequests {
  (** [requests.post(f"{API_URL}/clean-mesh?return_format=ply",
      files={'file': (filename, f, 'application/octet-stream')})], which
      raises when the server cannot be reached *)
  post_clean_mesh : string -> bytes -> outcome HTTPResponse;
  (** [response.text] *)
  response_text : HTTPResponse -> string;
  (** [open(path, 'wb')] raises *)
  open_fault : string -> option exn;
  (** [f.write(response.content)] raises *)
  file_write_fault : option exn
}.

(** The script's side of the world: its files and what it printed. *)
Record Client : Type := mkClient {
  client_fs : gmap string bytes;
  stdout : list string
}.

Definition print (line : string) (c : Client) : Client :=
  mkClient (client_fs c) (stdout c ++ [line]).

Definition newline : string := String (Ascii.ascii_of_nat 10) EmptyString.

(** [test_clean_mesh] (test_api.py, lines 16-35).  The file is posted under
    the name [ply_file_path]; [open(output_path, 'wb')] creates or truncates
    the file before anything is written to it. *)
Definition test_clean_mesh (rq : Requests) (ply_file_path : string) (c : Client)
    : outcome unit * Client :=
  let c := print (newline +:+ "Testing mesh cleaning with file: " +:+ ply_file_path) c in
  match client_fs c !! ply_file_path with
  | None => (Raised (Exception "FileNotFoundError"), c)
  | Some f =>
      match post_clean_mesh rq ply_file_path f with
      | Raised e => (Raised e, c)
      | Normal response =>
          if Z.eqb (response_status_code response) 200 then
            let output_path := Py.replace ply_file_path ".ply" "_cleaned.ply" in
            match open_fault rq output_path with
            | Some e => (Raised e, c)
            | None =>
                let c := mkClient (<[output_path := []]> (client_fs c)) (stdout c) in
                match file_write_fault rq with
                | Some e => (Raised e, c)
                | None =>
                    let c := mkClient (<[output_path := response_content response]>
                                         (client_fs c))
                                      (stdout c) in
                    let c := print ("✓ Cleaned mesh saved to: " +:+ output_path) c in
                    let c := print ("  Response size: "
                                    +:+ Py.str_of_nat (length (response_content response))
                                    +:+ " bytes") c in
                    (Normal tt, c)
                end
            end
          else
            let c := print ("✗ Error: " +:+ pretty (response_status_code response)) c in
            let c := print ("  " +:+ response_text rq response) c in
            (Normal tt, c)
      end
  end.

(** A client whose requests are answered by the handler itself, run with the
    stand-in of [Fake] on an empty server. *)
Module FakeClient.

Definition requests : Requests := {|
  post_clean_mesh := fun filename f =>
    Normal (mkHTTPResponse
              (http_status (clean_mesh_endpoint Fake.rt Fake.o3d_lenient
                              (mkRequest filename f (Some "ply")) Fake.s0))
              (match clean_mesh_endpoint Fake.rt Fake.o3d_lenient
                       (mkRequest filename f (Some "ply")) Fake.s0 with
               | (Normal resp, s') => default [] (fs s' !! path resp)
               | (Raised _, _) => []
               end));
  response_text := fun _ => "";
  open_fault := fun _ => None;
  file_write_fault := None
|}.

End FakeClient.

(** ** Vocabulary of the statements *)

(** The paths a trace unlinks, in order. *)
Definition unlinked (t : list event) : list string :=
  omap (fun e => match e with EvUnlink p => Some p | _ => None end) t.

(** [frames out Q m]: whatever the state, running [m] leaves [input_path]
    and every file but [out] as they were, unlinks nothing, and a normal
    result satisfies [Q]. *)
Definition frames (out : string) {A} (Q : A -> Prop) (m : M A) : Prop :=
  forall s,
    input_path (m s).2 = input_path s /\
    (forall q, q <> out -> fs (m s).2 !! q = fs s !! q) /\
    (exists t, trace (m s).2 = (trace s ++ t)%list /\ unlinked t = []) /\
    (forall a, (m s).1 = Normal a -> Q a).

(** [extend s t]: the state [s] after the events [t], nothing else changed. *)
Definition extend (s : St) (t : list event) : St :=
  mkSt (fs s) (trace s ++ t) (input_path s) (output_path s).

(** The state with no file, no event and no local assigned. *)
Definition blank : St := mkSt ∅ [] None None.

(** What a computation returns and what it logs when run from [blank]. *)
Definition result_of {A} (m : M A) : outcome A := (m blank).1.
Definition events_of {A} (m : M A) : list event := trace (m blank).2.

(** [logger m]: from any state, [m] returns [result_of m], appends
    [events_of m] to the trace and changes nothing else. *)
Definition logger {A} (m : M A) : Prop :=
  forall s, m s = (result_of m, extend s (events_of m)).

(** Open3D's [TriangleMesh], the class of the meshes that
    [create_from_point_cloud_poisson] returns, has no method [fill_holes]
    (the tensor-based mesh of [open3d.t] has one): looking it up raises
    [AttributeError]. *)
Definition lacks_fill_holes (o3d : Open3D) : Prop :=
  forall mesh, exists e, fill_holes o3d mesh = Raised e.

(** Open3D's writer, given a cloud without points, writes no file and
    returns [False]. *)
Definition skips_empty_cloud (o3d : Open3D) : Prop :=
  forall p pcd, points pcd = [] -> write_point_cloud o3d p pcd = (None, Normal false).

(** The six repairs of [clean_mesh] in the order of the source, and the
    events they log. *)
Definition mesh_steps (o3d : Open3D) : list (TriangleMesh -> outcome TriangleMesh) :=
  [remove_degenerate_triangles o3d; remove_duplicated_triangles o3d;
   remove_duplicated_vertices o3d; remove_non_manifold_edges o3d;
   (fun m => filter_smooth_simple o3d m 5); fill_holes o3d].

Definition mesh_events : list event :=
  [EvRemoveDegenerateTriangles; EvRemoveDuplicatedTriangles; EvRemoveDuplicatedVertices;
   EvRemoveNonManifoldEdges; EvFilterSmoothSimple 5; EvFillHoles].

(** Steps run one after the other on each other's result, up to the first
    one that raises. *)
Definition pipeline {A} (steps : list (A -> outcome A)) (a : A) : outcome A :=
  foldl (fun r step => match r with Normal x => step x | Raised e => Raised e end)
        (Normal a) steps.

(** [/clean-mesh] as the client script reaches it: a response that comes
    back carries the status of the handler run on the posted file with
    [return_format=ply], the server being in state [srv]. *)
Definition served_by (rt : Runtime) (o3d : Open3D) (srv : St) (rq : Requests) : Prop :=
  forall filename f response,
    post_clean_mesh rq filename f = Normal response ->
    response_status_code response
      = http_status (clean_mesh_endpoint rt o3d (mkRequest filename f (Some "ply")) srv).

(** * Properties *)

Arguments Py.replace : simpl never.
Arguments Py.str_of_nat : simpl never.
Arguments str : simpl never.
Arguments String.append : simpl never.

(** ** Facts about the string primitives *)

Section StringFacts.

Lemma append_nonempty (b t : string) : t <> "" -> String.eqb (b +:+ t) "" = false.
Proof.
  intros Ht. apply String.eqb_neq. destruct b; simpl; [done | discriminate].
Qed.

Lemma length_append (a b : string) :
  String.length (a +:+ b) = String.length a + String.length b.
Proof. induction a as [|c a IH]; simpl; [done | by rewrite IH]. Qed.

Ltac str_len :=
  repeat (progress (cbn [String.length] in *; rewrite ?length_append in * ));
  lia.

Lemma prefix_append (a b : string) : String.prefix a (a +:+ b) = true.
Proof.
  induction a as [|c a IH]; simpl.
  - by destruct b.
  - destruct (ascii_dec c c); [exact IH | done].
Qed.

(** A replacement by a string at least as long never shortens: what
    [replace_from] returns, together with what it was told to skip, is at
    least as long as what it was given. *)
Lemma replace_from_length (old new : string) (skip : nat) (s : string) :
  old <> "" ->
  String.length old <= String.length new ->
  String.length s <= String.length (Py.replace_from old new skip s) + skip.
Proof.
  intros Hold Hlen. revert skip.
  induction s as [|c s IH]; intros skip;
    cbn [Py.replace_from String.length]; [lia|].
  destruct skip as [|k].
  - destruct (String.prefix old (String c s)).
    + rewrite length_append. specialize (IH (String.length old - 1)).
      destruct old; [done | cbn [String.length] in *; lia].
    + cbn [String.length]. specialize (IH 0). lia.
  - specialize (IH k). lia.
Qed.

(** With a strictly longer replacement, one occurrence beyond the skipped
    characters makes the result strictly longer. *)
Lemma replace_from_longer (old new : string) (skip : nat) (a b : string) :
  old <> "" ->
  String.length old < String.length new ->
  skip <= String.length a ->
  String.length (a +:+ old +:+ b)
    < String.length (Py.replace_from old new skip (a +:+ old +:+ b)) + skip.
Proof.
  intros Hold Hlen. revert skip.
  induction a as [|c a IH]; intros skip Hskip.
  - simpl in Hskip. assert (skip = 0) as -> by lia.
    change ("" +:+ old +:+ b) with (old +:+ b).
    destruct old as [|c old]; [done|].
    change (String c old +:+ b) with (String c (old +:+ b)).
    cbn [Py.replace_from].
    change (String c (old +:+ b)) with (String c old +:+ b).
    rewrite prefix_append.
    pose proof (replace_from_length (String c old) new
                  (String.length (String c old) - 1) (old +:+ b)
                  Hold ltac:(lia)) as H.
    str_len.
  - change (String c a +:+ old +:+ b) with (String c (a +:+ old +:+ b)).
    cbn [Py.replace_from]. destruct skip as [|k].
    + destruct (String.prefix old (String c (a +:+ old +:+ b))).
      * pose proof (replace_from_length old new (String.length old - 1)
                      (a +:+ old +:+ b) Hold ltac:(lia)) as H.
        destruct old; [done|]. str_len.
      * specialize (IH 0 ltac:(lia)). str_len.
    + specialize (IH k ltac:(cbn [String.length] in Hskip; lia)). str_len.
Qed.

(** The output path of a handler differs from its input path. *)
Lemma replace_ply_differs (base new : string) :
  4 < String.length new ->
  Py.replace (base +:+ ".ply") ".ply" new <> base +:+ ".ply".
Proof.
  intros Hlen Heq.
  pose proof (replace_from_longer ".ply" new 0 base "") as H.
  assert (Py.replace (base +:+ ".ply") ".ply" new
          = Py.replace_from ".ply" new 0 (base +:+ ".ply" +:+ "")) as E.
  { unfold Py.replace. by replace (".ply" +:+ "") with ".ply" by done. }
  rewrite <- E, Heq in H.
  replace (".ply" +:+ "") with ".ply" in H by done.
  simpl String.length in H. specialize (H ltac:(done) Hlen ltac:(lia)). lia.
Qed.

Lemma cleaned_suffix_long (rf : string) : 4 < String.length ("_cleaned." +:+ rf).
Proof. rewrite length_append. simpl. lia. Qed.

End StringFacts.

(** ** Steps of the handlers *)

Section Steps.

Context (rt : Runtime) (o3d : Open3D).

(** The upload reaches the temporary file when neither the read nor the
    write raises. *)
Lemma save_upload_ok (req : Request) (s : St) :
  read_fault rt = None -> write_fault rt = None ->
  save_upload rt req s =
    (Normal (tmp_base rt (fs s) +:+ ".ply"),
     mkSt (<[tmp_base rt (fs s) +:+ ".ply" := content req]>
             (<[tmp_base rt (fs s) +:+ ".ply" := []]> (fs s)))
          (trace s ++ [EvCreate (tmp_base rt (fs s) +:+ ".ply");
                       EvWrite (tmp_base rt (fs s) +:+ ".ply")])
          (Some (tmp_base rt (fs s) +:+ ".ply")) (output_path s)).
Proof.
  intros Hr Hw. unfold save_upload, NamedTemporaryFile, file_read, tmp_write, bind.
  rewrite Hr, Hw. simpl. by rewrite <- app_assoc.
Qed.

(** When the write raises, the file exists and [input_path] is still
    unassigned. *)
Lemma save_upload_write_fault (req : Request) (s : St) (e : exn) :
  read_fault rt = None -> write_fault rt = Some e ->
  save_upload rt req s =
    (Raised e,
     mkSt (<[tmp_base rt (fs s) +:+ ".ply" := []]> (fs s))
          (trace s ++ [EvCreate (tmp_base rt (fs s) +:+ ".ply")])
          (input_path s) (output_path s)).
Proof.
  intros Hr Hw. unfold save_upload, NamedTemporaryFile, file_read, tmp_write, bind.
  rewrite Hr, Hw. reflexivity.
Qed.

Lemma cleanup_unlinks (s : St) (p : string) (b : bytes) :
  input_path s = Some p -> p <> "" -> fs s !! p = Some b ->
  cleanup s =
    (Normal tt, mkSt (delete p (fs s)) (trace s ++ [EvUnlink p]) (Some p) (output_path s)).
Proof.
  intros Hp Hne Hb. unfold cleanup, bind, get_input_path, os_path_exists, os_unlink.
  rewrite Hp. apply String.eqb_neq in Hne. rewrite Hne. simpl.
  rewrite Hb. rewrite bool_decide_eq_true_2 by eauto. by rewrite Hb, Hp.
Qed.

Lemma cleanup_unassigned (s : St) :
  input_path s = None -> cleanup s = (Normal tt, s).
Proof.
  intros Hp. unfold cleanup, bind, get_input_path. by rewrite Hp.
Qed.

Lemma clean_point_cloud_run (pcd : PointCloud) (s : St) :
  clean_point_cloud o3d pcd s =
    (Normal (remove_radius_outlier o3d
               (remove_statistical_outlier o3d pcd 20 2.0%Q).1 16 0.05%Q).1,
     mkSt (fs s)
          (trace s ++ [EvStatisticalOutlier 20 2.0%Q; EvRadiusOutlier 16 0.05%Q])
          (input_path s) (output_path s)).
Proof.
  unfold clean_point_cloud, pcd_remove_statistical_outlier, pcd_remove_radius_outlier.
  unfold bind, log, ret. simpl.
  destruct (remove_statistical_outlier o3d pcd 20 2.0%Q) as [p1 i1]. simpl.
  destruct (remove_radius_outlier o3d p1 16 0.05%Q) as [p2 i2]. simpl.
  by rewrite <- app_assoc.
Qed.

End Steps.

(** ** Validation *)

(** C4. A request whose filename does not end in '.ply' is answered 400 by
    both handlers, and the state is the one the request found: no file was
    created or written, no call was made. *)
Theorem bad_extension_rejected_before_any_write
    (rt : Runtime) (o3d : Open3D) (req : Request) (s : St) :
  Py.endswith (filename req) ".ply" = false ->
  clean_mesh_endpoint rt o3d req s
    = (Raised (HTTPException 400 "Only PLY files are supported"), s) /\
  clean_point_cloud_endpoint rt o3d req s
    = (Raised (HTTPException 400 "Only PLY files are supported"), s) /\
  http_status (clean_mesh_endpoint rt o3d req s) = 400%Z /\
  http_status (clean_point_cloud_endpoint rt o3d req s) = 400%Z.
Proof.
  intros H. unfold clean_mesh_endpoint, clean_point_cloud_endpoint.
  rewrite H. simpl. done.
Qed.

Lemma bad_extension_rejected_witness :
  Py.endswith "scan.obj" ".ply" = false /\
  clean_mesh_endpoint Fake.rt Fake.o3d (mkRequest "scan.obj" [Byte.x07] None) Fake.s0
    = (Raised (HTTPException 400 "Only PLY files are supported"), Fake.s0).
Proof.
  split; [reflexivity|].
  apply (bad_extension_rejected_before_any_write
           Fake.rt Fake.o3d (mkRequest "scan.obj" [Byte.x07] None) Fake.s0).
  reflexivity.
Defined.

(** C7. With a '.ply' filename, a [return_format] other than 'ply' and 'obj'
    is answered 400 by [/clean-mesh] and the state is untouched; a request
    that omits [return_format] is handled as one that gives 'ply'. *)
Theorem bad_return_format_rejected
    (rt : Runtime) (o3d : Open3D) (req : Request) (rf : string) (s : St) :
  Py.endswith (filename req) ".ply" = true ->
  return_format req = Some rf -> rf <> "ply" -> rf <> "obj" ->
  clean_mesh_endpoint rt o3d req s
    = (Raised (HTTPException 400 "return_format must be 'ply' or 'obj'"), s) /\
  http_status (clean_mesh_endpoint rt o3d req s) = 400%Z /\
  clean_mesh_endpoint rt o3d (mkRequest (filename req) (content req) None) s
    = clean_mesh_endpoint rt o3d (mkRequest (filename req) (content req) (Some "ply")) s.
Proof.
  intros Hext Hrf H1 H2. unfold clean_mesh_endpoint at 1 2.
  rewrite Hext, Hrf. simpl.
  apply String.eqb_neq in H1, H2. rewrite H1, H2. simpl. done.
Qed.

Lemma bad_return_format_rejected_witness :
  clean_mesh_endpoint Fake.rt Fake.o3d (mkRequest "scan.ply" [Byte.x07] (Some "stl")) Fake.s0
    = (Raised (HTTPException 400 "return_format must be 'ply' or 'obj'"), Fake.s0).
Proof.
  apply (bad_return_format_rejected
           Fake.rt Fake.o3d (mkRequest "scan.ply" [Byte.x07] (Some "stl")) "stl" Fake.s0);
    [reflexivity | reflexivity | discriminate | discriminate].
Defined.

(** ** Point-cloud cleaning *)

(** C5. [clean_point_cloud] makes exactly two library calls, in this order:
    the statistical filter with 20 neighbours and ratio 2.0, then the radius
    filter with 16 points and radius 0.05.  Its result is the output of the
    second applied to the output of the first; nothing else in the state
    changes. *)
Theorem clean_point_cloud_is_two_filters (o3d : Open3D) (pcd : PointCloud) (s : St) :
  clean_point_cloud o3d pcd s =
    (Normal (remove_radius_outlier o3d
               (remove_statistical_outlier o3d pcd 20 2.0%Q).1 16 0.05%Q).1,
     mkSt (fs s)
          (trace s ++ [EvStatisticalOutlier 20 2.0%Q; EvRadiusOutlier 16 0.05%Q])
          (input_path s) (output_path s)).
Proof. apply clean_point_cloud_run. Qed.

(** C6. When the library's filters return selections of their input, the
    cleaned cloud is a selection of the input cloud, so it has no more
    points. *)
Theorem clean_point_cloud_only_removes (o3d : Open3D) (pcd : PointCloud) (s : St) :
  filters_select o3d ->
  exists cleaned,
    (clean_point_cloud o3d pcd s).1 = Normal cleaned /\
    points cleaned `sublist_of` points pcd /\
    length (points cleaned) <= length (points pcd).
Proof.
  intros Hsel. rewrite clean_point_cloud_run. eexists. split; [reflexivity|].
  assert (points (remove_radius_outlier o3d
                    (remove_statistical_outlier o3d pcd 20 2.0%Q).1 16 0.05%Q).1
          `sublist_of` points pcd) as Hsub.
  { etrans; [apply (Hsel _ 16 0.05%Q) | apply (Hsel pcd 20 2.0%Q)]. }
  split; [exact Hsub | by apply sublist_length].
Qed.

Lemma clean_point_cloud_only_removes_witness :
  exists cleaned,
    (clean_point_cloud Fake.o3d (Fake.decode [Byte.x01; Byte.x02; Byte.x03]) Fake.s0).1
      = Normal cleaned /\
    points cleaned `sublist_of` points (Fake.decode [Byte.x01; Byte.x02; Byte.x03]) /\
    length (points cleaned) <= 3.
Proof.
  apply (clean_point_cloud_only_removes Fake.o3d
           (Fake.decode [Byte.x01; Byte.x02; Byte.x03]) Fake.s0).
  intros pcd nb r.
  assert (forall (f : Point -> bool) (l : list Point), List.filter f l `sublist_of` l) as Hf.
  { intros f l. induction l as [|x l IH]; simpl; [constructor|].
    destruct (f x); by constructor. }
  split; apply Hf.
Defined.

(** ** Running a handler *)

Ltac unfold_handler :=
  unfold clean_mesh_endpoint, clean_point_cloud_endpoint,
    try_finally, try_except, save_upload, NamedTemporaryFile, file_read, tmp_write,
    io_read_point_cloud, io_write_point_cloud, io_write_triangle_mesh, io_write,
    serialize_mesh, cleanup, get_input_path, os_path_exists, os_unlink,
    set_input_path, set_output_path, bind, log, lift, ret, raise, fs_put.

Ltac st := cbn [fst snd fs trace input_path output_path negb length Nat.eqb].

Ltac run :=
  repeat progress
    (st;
     rewrite ?lookup_insert_eq, ?append_nonempty by done;
     rewrite ?lookup_insert_ne, ?lookup_delete_ne by done;
     rewrite ?bool_decide_eq_true_2 by eauto).

Lemma nonempty_length {A} (l : list A) : l <> [] -> Nat.eqb (length l) 0 = false.
Proof. destruct l; [done | reflexivity]. Qed.

(** ** The empty and the too-sparse cloud *)

(** C1 (what the code does). A '.ply' upload that decodes to zero points
    raises [HTTPException(400)] inside the [try] block; the handler's own
    [except Exception] catches it and raises [HTTPException(500)], so both
    endpoints answer 500, with the 400 only quoted in the message. *)
Theorem empty_cloud_is_answered_500
    (rt : Runtime) (o3d : Open3D) (req : Request) (pcd : PointCloud) (s : St) :
  Py.endswith (filename req) ".ply" = true ->
  Py.str_in (default "ply" (return_format req)) ["ply"; "obj"] = true ->
  read_fault rt = None -> write_fault rt = None ->
  read_point_cloud o3d (Some (content req)) = Normal pcd ->
  points pcd = [] ->
  (clean_mesh_endpoint rt o3d req s).1
    = Raised (HTTPException 500 "Error processing mesh: 400: Point cloud is empty") /\
  (clean_point_cloud_endpoint rt o3d req s).1
    = Raised (HTTPException 500 "Error processing point cloud: 400: Point cloud is empty") /\
  http_status (clean_mesh_endpoint rt o3d req s) = 500%Z /\
  http_status (clean_point_cloud_endpoint rt o3d req s) = 500%Z.
Proof.
  intros Hext Hfmt Hr Hw Hdec Hemp.
  unfold http_status. unfold_handler.
  rewrite Hext, Hfmt, Hr, Hw. run.
  rewrite Hdec, Hemp. run.
  done.
Qed.

Lemma empty_cloud_is_answered_500_witness :
  http_status (clean_mesh_endpoint Fake.rt Fake.o3d (mkRequest "scan.ply" [] None) Fake.s0)
    = 500%Z /\
  http_status (clean_point_cloud_endpoint Fake.rt Fake.o3d (mkRequest "scan.ply" [] None)
                 Fake.s0)
    = 500%Z.
Proof.
  apply (empty_cloud_is_answered_500 Fake.rt Fake.o3d (mkRequest "scan.ply" [] None)
           (mkPointCloud [] []) Fake.s0); reflexivity.
Defined.

(** C2 (what the code does). A non-empty cloud that cleaning leaves with
    fewer than 1000 points raises [HTTPException(400)] with the count in its
    detail; the same [except Exception] turns it into a 500 whose message
    quotes that detail. *)
Theorem too_few_points_is_answered_500
    (rt : Runtime) (o3d : Open3D) (req : Request) (pcd cleaned : PointCloud) (s : St) :
  Py.endswith (filename req) ".ply" = true ->
  Py.str_in (default "ply" (return_format req)) ["ply"; "obj"] = true ->
  read_fault rt = None -> write_fault rt = None ->
  read_point_cloud o3d (Some (content req)) = Normal pcd ->
  points pcd <> [] ->
  (remove_radius_outlier o3d (remove_statistical_outlier o3d pcd 20 2.0%Q).1 16 0.05%Q).1
    = cleaned ->
  length (points cleaned) < 1000 ->
  (clean_mesh_endpoint rt o3d req s).1
    = Raised (HTTPException 500
                ("Error processing mesh: 400: Too few points after cleaning ("
                 +:+ Py.str_of_nat (length (points cleaned))
                 +:+ "). Original scan may be too noisy.")) /\
  http_status (clean_mesh_endpoint rt o3d req s) = 500%Z.
Proof.
  intros Hext Hfmt Hr Hw Hdec Hne Hcl Hfew.
  unfold http_status. unfold_handler.
  rewrite Hext, Hfmt, Hr, Hw. run.
  rewrite Hdec, (nonempty_length _ Hne). run.
  rewrite clean_point_cloud_run, Hcl. run.
  apply Nat.ltb_lt in Hfew. rewrite Hfew. run.
  done.
Qed.

Lemma too_few_points_is_answered_500_witness :
  (clean_mesh_endpoint Fake.rt Fake.o3d_lenient
     (mkRequest "scan.ply" [Byte.x01; Byte.x02; Byte.x03] (Some "obj")) Fake.s0).1
    = Raised (HTTPException 500
                "Error processing mesh: 400: Too few points after cleaning (3). Original scan may be too noisy.") /\
  http_status (clean_mesh_endpoint Fake.rt Fake.o3d_lenient
                 (mkRequest "scan.ply" [Byte.x01; Byte.x02; Byte.x03] (Some "obj")) Fake.s0)
    = 500%Z.
Proof.
  apply (too_few_points_is_answered_500 Fake.rt Fake.o3d_lenient
           (mkRequest "scan.ply" [Byte.x01; Byte.x02; Byte.x03] (Some "obj"))
           (Fake.decode [Byte.x01; Byte.x02; Byte.x03])
           (Fake.decode [Byte.x01; Byte.x02; Byte.x03]) Fake.s0);
    [reflexivity | reflexivity | reflexivity | reflexivity | reflexivity
    | discriminate | reflexivity | simpl; lia].
Defined.

(** ** [/clean-point-cloud] on a degenerate cloud *)

(** C3 (where the code answers 500). [/clean-point-cloud] checks neither
    what cleaning leaves nor what the writer returns.  For a '.ply' upload
    that decodes to a non-empty cloud which the two filters empty, as
    Open3D's do with copies of a single point, the writer stores no file and
    returns [False], and the handler goes on to return the [FileResponse]
    for the output path, a file that does not exist: sending it fails, and
    the answer is 500, not the 400 of a rejected scan. *)
Theorem emptied_cloud_is_answered_500
    (rt : Runtime) (o3d : Open3D) (req : Request) (pcd cleaned : PointCloud)
    (out : string) (s : St) :
  Py.endswith (filename req) ".ply" = true ->
  read_fault rt = None -> write_fault rt = None ->
  read_point_cloud o3d (Some (content req)) = Normal pcd ->
  points pcd <> [] ->
  (remove_radius_outlier o3d (remove_statistical_outlier o3d pcd 20 2.0%Q).1 16 0.05%Q).1
    = cleaned ->
  points cleaned = [] ->
  skips_empty_cloud o3d ->
  Py.replace (tmp_base rt (fs s) +:+ ".ply") ".ply" "_cleaned.ply" = out ->
  fs s !! out = None ->
  (clean_point_cloud_endpoint rt o3d req s).1
    = Normal (FileResponse out "application/octet-stream"
                (stem rt (filename req) +:+ "_cleaned.ply")) /\
  fs (clean_point_cloud_endpoint rt o3d req s).2 !! out = None /\
  http_status (clean_point_cloud_endpoint rt o3d req s) = 500%Z.
Proof.
  intros Hext Hr Hw Hdec Hne Hcl Hempty Hskip Hout Hfree.
  assert (out <> tmp_base rt (fs s) +:+ ".ply") as Hdiff.
  { rewrite <- Hout. apply replace_ply_differs. simpl. lia. }
  assert (tmp_base rt (fs s) +:+ ".ply" <> out) as Hdiff' by done.
  unfold http_status. unfold_handler.
  rewrite Hext, Hr, Hw. run.
  rewrite Hdec, (nonempty_length _ Hne). run.
  rewrite clean_point_cloud_run, Hcl, Hout. run.
  rewrite (Hskip out cleaned Hempty). run.
  split; [done|]. split; [done|]. cbn [path]. rewrite Hfree.
  rewrite bool_decide_eq_false_2; [done|]. by intros [? ?].
Qed.

Lemma Fake_skips_empty_cloud : skips_empty_cloud Fake.o3d.
Proof. intros p pcd Hempty. cbn. by rewrite Hempty. Qed.

Lemma emptied_cloud_is_answered_500_witness :
  http_status (clean_point_cloud_endpoint Fake.rt Fake.o3d
                 (mkRequest "scan.ply" (replicate 2000 Byte.x07) None) Fake.s0)
    = 500%Z.
Proof.
  refine (proj2 (proj2 (emptied_cloud_is_answered_500 Fake.rt Fake.o3d
                          (mkRequest "scan.ply" (replicate 2000 Byte.x07) None)
                          (Fake.decode (replicate 2000 Byte.x07))
                          (mkPointCloud [] [])
                          "/tmp/tmpk3x9w2ab_cleaned.ply" Fake.s0
                          eq_refl eq_refl eq_refl eq_refl _ _ eq_refl
                          Fake_skips_empty_cloud eq_refl (lookup_empty _)))).
  - vm_compute. discriminate.
  - vm_compute. reflexivity.
Defined.

(** ** The temporary input file *)

(** C8 (where the code leaves the file behind). When writing the upload to
    the temporary file raises, the file has been created but [input_path]
    is still [None]: the [finally] block deletes nothing, and the request
    leaves an empty temporary file behind that is not the output artifact. *)
Theorem failed_upload_write_leaves_temp_file
    (rt : Runtime) (o3d : Open3D) (req : Request) (e : exn) (s : St) :
  Py.endswith (filename req) ".ply" = true ->
  Py.str_in (default "ply" (return_format req)) ["ply"; "obj"] = true ->
  read_fault rt = None -> write_fault rt = Some e ->
  tmp_fresh rt s ->
  fs (clean_mesh_endpoint rt o3d req s).2 = <[tmp_base rt (fs s) +:+ ".ply" := []]> (fs s) /\
  trace (clean_mesh_endpoint rt o3d req s).2
    = (trace s ++ [EvCreate (tmp_base rt (fs s) +:+ ".ply")])%list /\
  fs (clean_point_cloud_endpoint rt o3d req s).2
    = <[tmp_base rt (fs s) +:+ ".ply" := []]> (fs s) /\
  trace (clean_point_cloud_endpoint rt o3d req s).2
    = (trace s ++ [EvCreate (tmp_base rt (fs s) +:+ ".ply")])%list /\
  <[tmp_base rt (fs s) +:+ ".ply" := []]> (fs s) <> fs s.
Proof.
  intros Hext Hfmt Hr Hw Hfresh.
  unfold_handler. rewrite Hext, Hfmt, Hr, Hw. run.
  repeat split; try done.
  intros Heq. unfold tmp_fresh in Hfresh.
  apply (f_equal (fun m => m !! (tmp_base rt (fs s) +:+ ".ply"))) in Heq.
  rewrite lookup_insert_eq, Hfresh in Heq. discriminate.
Qed.

Lemma failed_upload_write_leaves_temp_file_witness :
  fs (clean_point_cloud_endpoint Fake.rt_disk_full Fake.o3d
        (mkRequest "scan.ply" [Byte.x07] None) Fake.s0).2
    = <[ "/tmp/tmpk3x9w2ab.ply" := [] ]> ∅ /\
  trace (clean_point_cloud_endpoint Fake.rt_disk_full Fake.o3d
           (mkRequest "scan.ply" [Byte.x07] None) Fake.s0).2
    = [EvCreate "/tmp/tmpk3x9w2ab.ply"].
Proof.
  pose proof (failed_upload_write_leaves_temp_file Fake.rt_disk_full Fake.o3d
                (mkRequest "scan.ply" [Byte.x07] None)
                (Exception "[Errno 28] No space left on device") Fake.s0
                eq_refl eq_refl eq_refl eq_refl (lookup_empty _)) as H.
  split; apply H.
Defined.

(** *** Framing the body of a handler *)

Section Frames.

Context (o3d : Open3D) (out : string).

Lemma frames_ret {A} (Q : A -> Prop) (a : A) : Q a -> frames out Q (ret a).
Proof.
  intros Ha s. cbn. repeat split; [|by intros ? [= <-]].
  exists []. by rewrite app_nil_r.
Qed.

Lemma frames_raise {A} (Q : A -> Prop) (e : exn) : frames out Q (raise e).
Proof.
  intros s. cbn. repeat split; [|done].
  exists []. by rewrite app_nil_r.
Qed.

Lemma frames_lift {A} (r : outcome A) : frames out (fun _ => True) (lift r).
Proof.
  intros s. cbn. repeat split. exists []. by rewrite app_nil_r.
Qed.

Lemma frames_bind {A B} (Q1 : A -> Prop) (Q2 : B -> Prop) (m : M A) (k : A -> M B) :
  frames out Q1 m -> (forall a, Q1 a -> frames out Q2 (k a)) ->
  frames out Q2 (bind m k).
Proof.
  intros Hm Hk s. unfold bind. specialize (Hm s).
  destruct (m s) as [[a|e] s1]; cbn in *.
  - destruct Hm as (Hi & Hf & (t1 & Ht1 & Hu1) & Ha).
    specialize (Hk a (Ha a eq_refl) s1).
    destruct Hk as (Hi' & Hf' & (t2 & Ht2 & Hu2) & Hb).
    split; [congruence|]. split; [intros q Hq; rewrite Hf', Hf; done|].
    split; [|done].
    exists (t1 ++ t2)%list. rewrite Ht2, Ht1, <- app_assoc. split; [done|].
    unfold unlinked in *. by rewrite omap_app, Hu1, Hu2.
  - destruct Hm as (Hi & Hf & Ht & _). done.
Qed.

Lemma frames_log (e : event) :
  unlinked [e] = [] -> frames out (fun _ => True) (log e).
Proof. intros He s. cbn. repeat split. by exists [e]. Qed.

Lemma frames_set_output_path (p : option string) :
  frames out (fun _ => True) (set_output_path p).
Proof.
  intros s. cbn. repeat split. exists []. by rewrite app_nil_r.
Qed.

Lemma frames_call {A} (e : event) (r : outcome A) :
  unlinked [e] = [] -> frames out (fun _ => True) (do_ log e ;; lift r).
Proof.
  intros He. eapply frames_bind; [by apply frames_log | intros; apply frames_lift].
Qed.

Lemma frames_io_read_point_cloud (p : string) :
  frames out (fun _ => True) (io_read_point_cloud o3d p).
Proof.
  intros s. cbn. repeat split. by exists [EvReadPointCloud p].
Qed.

Lemma frames_clean_point_cloud (pcd : PointCloud) :
  frames out (fun _ => True) (clean_point_cloud o3d pcd).
Proof.
  intros s. rewrite clean_point_cloud_run. cbn. repeat split. by eexists.
Qed.

Lemma frames_io_write (e : event) (w : option bytes * outcome bool) :
  unlinked [e] = [] -> frames out (fun _ => True) (io_write e out w).
Proof.
  intros He s. unfold io_write, bind, log, fs_put, ret, lift.
  destruct w as [[b|] r]; cbn.
  - repeat split; [|by exists [e]].
    intros q Hq. by rewrite lookup_insert_ne.
  - repeat split. by exists [e].
Qed.

Lemma frames_create_mesh (pcd : PointCloud) :
  frames out (fun _ => True) (create_mesh_from_point_cloud o3d pcd).
Proof.
  unfold create_mesh_from_point_cloud, pcd_estimate_normals,
    pcd_orient_normals_consistent_tangent_plane,
    mesh_create_from_point_cloud_poisson, mesh_remove_vertices_by_mask.
  eapply frames_bind; [by apply frames_call | intros pcd1 _].
  eapply frames_bind; [by apply frames_call | intros pcd2 _].
  eapply frames_bind; [by apply frames_call | intros [mesh ds] _].
  destruct (Nat.ltb 0 (length ds)); [by apply frames_call | by apply frames_ret].
Qed.

Lemma frames_clean_mesh (mesh : TriangleMesh) :
  frames out (fun _ => True) (clean_mesh o3d mesh).
Proof.
  unfold clean_mesh, mesh_call.
  repeat (eapply frames_bind; [by apply frames_call | intros ? _]).
  by apply frames_ret.
Qed.

End Frames.

Section Guard.

Context (rt : Runtime) (o3d : Open3D).

(** What a handler's [try / except / finally] does once the upload is
    saved under [p] and the rest of the body [k p] frames [out]: the
    temporary file is unlinked, once, and nothing else than [out] differs
    from the file system the request found. *)
Lemma guarded_frame (req : Request) (out pre : string) (k : string -> M Response)
    (s : St) :
  read_fault rt = None -> write_fault rt = None ->
  tmp_fresh rt s ->
  out <> tmp_base rt (fs s) +:+ ".ply" ->
  frames out (fun resp => path resp = out) (k (tmp_base rt (fs s) +:+ ".ply")) ->
  forall r,
    r = try_finally
          (try_except (do p <- save_upload rt req ;; k p)
                      (fun e => raise (HTTPException 500 (pre +:+ str e))))
          cleanup s ->
    (exists t, trace r.2 = (trace s ++ t)%list /\
               unlinked t = [tmp_base rt (fs s) +:+ ".ply"]) /\
    fs r.2 !! (tmp_base rt (fs s) +:+ ".ply") = None /\
    (forall q, q <> out -> fs r.2 !! q = fs s !! q) /\
    (forall resp, r.1 = Normal resp -> path resp = out).
Proof.
  intros Hr Hw Hfresh Hdiff Hk r Heq. unfold tmp_fresh in Hfresh.
  unfold try_finally, try_except in Heq. unfold bind at 1 in Heq.
  rewrite save_upload_ok in Heq by done.
  set (p := tmp_base rt (fs s) +:+ ".ply") in *.
  match type of Heq with context [k p ?s1] => specialize (Hk s1); set (s1' := s1) in * end.
  destruct (k p s1') as [res s2]. cbn [fst snd] in Hk.
  destruct Hk as (Hi & Hf & (t & Ht & Hu) & Hres).
  assert (fs s2 !! p = Some (content req)) as Hp.
  { rewrite Hf by done. subst s1'. cbn. apply lookup_insert_eq. }
  assert (p <> "") as Hne by (apply String.eqb_neq, append_nonempty; done).
  assert (r.2 = mkSt (delete p (fs s2)) (trace s2 ++ [EvUnlink p])
                     (Some p) (output_path s2) /\
          (forall resp, r.1 = Normal resp -> res = Normal resp)) as [Hr2 Hr1].
  { destruct res as [resp|e]; unfold raise in Heq;
      (erewrite cleanup_unlinks in Heq; [|exact Hi|exact Hne|exact Hp]);
      subst r; cbn [fst snd]; split; done. }
  rewrite Hr2. cbn [fs trace]. split; [|split; [|split]].
  - exists ([EvCreate p; EvWrite p] ++ t ++ [EvUnlink p])%list.
    rewrite Ht. subst s1'. cbn [trace]. rewrite <- !app_assoc. split; [done|].
    unfold unlinked in *. rewrite omap_app, omap_app, Hu. done.
  - apply lookup_delete_eq.
  - intros q Hq. destruct (decide (p = q)) as [<-|Hpq].
    + by rewrite lookup_delete_eq.
    + rewrite lookup_delete_ne, Hf by done. subst s1'. cbn [fs].
      by rewrite !lookup_insert_ne.
  - intros resp Hresp. apply Hres. by apply Hr1.
Qed.

End Guard.

(** On every exit path that follows the saving of the upload (success, a
    check that fails, a library call that raises), each handler unlinks its
    temporary input file, once, and unlinks nothing else; the file is gone
    when the handler returns, every path other than the output path holds
    what it held before the request, and a returned response names the
    output path, which differs from the temporary one. *)
Theorem temp_input_removed_once_output_kept
    (rt : Runtime) (o3d : Open3D) (req : Request) (p rf : string) (s : St) :
  Py.endswith (filename req) ".ply" = true ->
  default "ply" (return_format req) = rf ->
  Py.str_in rf ["ply"; "obj"] = true ->
  read_fault rt = None -> write_fault rt = None ->
  tmp_fresh rt s ->
  tmp_base rt (fs s) +:+ ".ply" = p ->
  forall (out : string) (r : outcome Response * St),
    (out = Py.replace p ".ply" ("_cleaned." +:+ rf) /\ r = clean_mesh_endpoint rt o3d req s) \/
    (out = Py.replace p ".ply" "_cleaned.ply" /\ r = clean_point_cloud_endpoint rt o3d req s) ->
    out <> p /\
    (exists t, trace r.2 = (trace s ++ t)%list /\ unlinked t = [p]) /\
    fs r.2 !! p = None /\
    (forall q, q <> out -> fs r.2 !! q = fs s !! q) /\
    (forall resp, r.1 = Normal resp -> path resp = out).
Proof.
  intros Hext Hrf Hfmt Hr Hw Hfresh <- out r [[-> ->] | [-> ->]].
  - assert (Py.replace (tmp_base rt (fs s) +:+ ".ply") ".ply" ("_cleaned." +:+ rf)
            <> tmp_base rt (fs s) +:+ ".ply") as Hdiff
      by apply replace_ply_differs, cleaned_suffix_long.
    split; [done|].
    unfold clean_mesh_endpoint. rewrite Hext, Hrf, Hfmt.
    unfold set_input_path, set_output_path. unfold bind at 1 2. cbn [negb].
    eapply (guarded_frame rt req _ "Error processing mesh: "
              (fun input_path => _) (mkSt (fs s) (trace s) None None));
      [done | done | done | exact Hdiff | | reflexivity].
    cbn beta.
    eapply frames_bind; [apply frames_io_read_point_cloud | intros pcd _].
    destruct (Nat.eqb _ 0); [apply frames_raise|].
    eapply frames_bind; [apply frames_clean_point_cloud | intros pcd' _].
    destruct (Nat.ltb _ 1000); [apply frames_raise|].
    eapply frames_bind; [apply frames_create_mesh | intros mesh _].
    eapply frames_bind; [apply frames_clean_mesh | intros mesh' _].
    eapply frames_bind; [apply frames_set_output_path | intros _ _].
    eapply frames_bind; [|intros _ _; by apply frames_ret].
    unfold serialize_mesh, io_write_triangle_mesh.
    destruct (String.eqb rf "ply"); by apply frames_io_write.
  - assert (Py.replace (tmp_base rt (fs s) +:+ ".ply") ".ply" "_cleaned.ply"
            <> tmp_base rt (fs s) +:+ ".ply") as Hdiff
      by (apply replace_ply_differs; simpl; lia).
    split; [done|].
    unfold clean_point_cloud_endpoint. rewrite Hext.
    unfold set_input_path, set_output_path. unfold bind at 1 2. cbn [negb].
    eapply (guarded_frame rt req _ "Error processing point cloud: "
              (fun input_path => _) (mkSt (fs s) (trace s) None None));
      [done | done | done | exact Hdiff | | reflexivity].
    cbn beta.
    eapply frames_bind; [apply frames_io_read_point_cloud | intros pcd _].
    destruct (Nat.eqb _ 0); [apply frames_raise|].
    eapply frames_bind; [apply frames_clean_point_cloud | intros pcd' _].
    eapply frames_bind; [apply frames_set_output_path | intros _ _].
    eapply frames_bind; [|intros _ _; by apply frames_ret].
    by apply frames_io_write.
Qed.

Lemma temp_input_removed_once_output_kept_witness :
  fs (clean_mesh_endpoint Fake.rt Fake.o3d
        (mkRequest "scan.ply" [Byte.x07] (Some "obj")) Fake.s0).2
    !! "/tmp/tmpk3x9w2ab.ply" = None.
Proof.
  destruct (temp_input_removed_once_output_kept Fake.rt Fake.o3d
              (mkRequest "scan.ply" [Byte.x07] (Some "obj"))
              "/tmp/tmpk3x9w2ab.ply" "obj" Fake.s0
              eq_refl eq_refl eq_refl eq_refl eq_refl (lookup_empty _) eq_refl
              "/tmp/tmpk3x9w2ab_cleaned.obj"
              (clean_mesh_endpoint Fake.rt Fake.o3d
                 (mkRequest "scan.ply" [Byte.x07] (Some "obj")) Fake.s0)
              (or_introl (conj eq_refl eq_refl)))
    as (_ & _ & Hgone & _).
  exact Hgone.
Defined.

(** ** Facts about binary64 and about the array operations *)

Section Float64.

Lemma lt_nan (x : float64) : F64.lt x F64.nan = false.
Proof. by destruct x. Qed.

Lemma compare_cont_eq (m1 m2 : positive) : Pos.compare_cont Eq m1 m2 = Eq -> m1 = m2.
Proof. apply Pos.compare_eq. Qed.

(** Floats that compare equal are the same float, or two zeros. *)
Lemma eqb_spec (x y : float64) :
  F64.eqb x y = true ->
  (exists s1 s2, x = S754_zero s1 /\ y = S754_zero s2) \/ (x = y /\ F64.isnan x = false).
Proof.
  unfold F64.eqb, SFeqb, SFcompare.
  destruct x as [[]|[]| |[] m1 e1], y as [[]|[]| |[] m2 e2]; try done;
    try (intros _; left; by eexists _, _); try (intros _; by right).
  all: destruct (Z.compare e1 e2) eqn:He; try done;
    destruct (Pos.compare_cont Eq m1 m2) eqn:Hm; try done; intros _; right;
    apply Z.compare_eq in He; apply compare_cont_eq in Hm; by subst.
Qed.

Lemma lt_irrefl (x : float64) : F64.lt x x = false.
Proof.
  unfold F64.lt, SFltb, SFcompare. destruct x as [s|s| |s m e]; try done.
  - by destruct s.
  - change (Pos.compare_cont Eq m m) with (Pos.compare m m).
    rewrite Z.compare_refl, Pos.compare_refl. by destruct s.
Qed.

Lemma sub_self_finite (s : bool) (m : positive) (e : Z) :
  F64.sub (S754_finite s m e) (S754_finite s m e) = S754_zero false.
Proof.
  unfold F64.sub, SFsub, shl_align.
  rewrite (Z.min_id e : IntDef.Z.min e e = e), (Z.sub_diag e : IntDef.Z.sub e e = 0%Z).
  cbn [fst]. by rewrite (Z.sub_diag _ : IntDef.Z.sub _ _ = 0%Z).
Qed.

Lemma mul_zero (s : bool) (u : float64) :
  (exists s', F64.mul (S754_zero s) u = S754_zero s') \/ F64.mul (S754_zero s) u = S754_nan.
Proof. destruct u; cbn; eauto. Qed.

Lemma mul_nan (u : float64) : F64.mul S754_nan u = S754_nan.
Proof. done. Qed.

(** Interpolating between equal floats gives nothing above them. *)
Lemma lerp_same (d a b t d0 : float64) :
  F64.eqb d d0 = true -> F64.eqb a d0 = true -> F64.eqb b d0 = true ->
  F64.lt d (Np.lerp a b t) = false.
Proof.
  intros Hd Ha Hb. unfold Np.lerp.
  generalize (F64.sub F64.c1 t). intros u.
  assert (forall w : float64,
            (exists s', w = S754_zero s') \/ w = S754_nan ->
            F64.lt d (F64.sub b w) = false /\ F64.lt d (F64.add a w) = false) as Hw.
  { apply eqb_spec in Hd, Ha, Hb.
    destruct d0 as [s0|s0| |s0 m0 e0].
    - assert (exists s, d = S754_zero s) as [sd ->]
        by (destruct Hd as [(? & ? & ? & _)|[-> _]]; eauto).
      assert (exists s, a = S754_zero s) as [sa ->]
        by (destruct Ha as [(? & ? & ? & _)|[-> _]]; eauto).
      assert (exists s, b = S754_zero s) as [sb ->]
        by (destruct Hb as [(? & ? & ? & _)|[-> _]]; eauto).
      intros w [[s' ->]| ->]; [|done].
      by destruct sa, sb, s'.
    - destruct Hd as [(? & ? & _ & ?)|[-> _]]; [done|].
      destruct Ha as [(? & ? & _ & ?)|[-> _]]; [done|].
      destruct Hb as [(? & ? & _ & ?)|[-> _]]; [done|].
      intros w [[s' ->]| ->]; [|done]. by destruct s0.
    - destruct Hd as [(? & ? & _ & ?)|[-> ?]]; done.
    - destruct Hd as [(? & ? & _ & ?)|[-> _]]; [done|].
      destruct Ha as [(? & ? & _ & ?)|[-> _]]; [done|].
      destruct Hb as [(? & ? & _ & ?)|[-> _]]; [done|].
      intros w [[s' ->]| ->]; [|done].
      change (F64.sub (S754_finite s0 m0 e0) (S754_zero s')) with (S754_finite s0 m0 e0).
      change (F64.add (S754_finite s0 m0 e0) (S754_zero s')) with (S754_finite s0 m0 e0).
      by rewrite lt_irrefl. }
  assert ((exists s', F64.sub b a = S754_zero s') \/ F64.sub b a = S754_nan) as Hdiff.
  { apply eqb_spec in Ha, Hb.
    destruct d0 as [s0|s0| |s0 m0 e0].
    - assert (exists s, a = S754_zero s) as [sa ->]
        by (destruct Ha as [(? & ? & ? & _)|[-> _]]; eauto).
      assert (exists s, b = S754_zero s) as [sb ->]
        by (destruct Hb as [(? & ? & ? & _)|[-> _]]; eauto).
      left. destruct sa, sb; by eexists.
    - destruct Ha as [(? & ? & _ & ?)|[-> _]]; [done|].
      destruct Hb as [(? & ? & _ & ?)|[-> _]]; [done|].
      right. by destruct s0.
    - destruct Ha as [(? & ? & _ & ?)|[-> ?]]; done.
    - destruct Ha as [(? & ? & _ & ?)|[-> _]]; [done|].
      destruct Hb as [(? & ? & _ & ?)|[-> _]]; [done|].
      left. rewrite sub_self_finite. by eexists. }
  assert (forall v, (exists s', F64.mul (F64.sub b a) v = S754_zero s')
                    \/ F64.mul (F64.sub b a) v = S754_nan) as Hmul.
  { intros v. destruct Hdiff as [[s' ->]| ->]; [apply mul_zero | by right]. }
  destruct (F64.le F64.c0_5 t); [apply (Hw _ (Hmul u)) | apply (Hw _ (Hmul t))].
Qed.

Lemma le_total (x y : float64) :
  F64.isnan x = false -> F64.isnan y = false -> F64.le x y = false -> F64.le y x = true.
Proof.
  unfold F64.le, SFleb, SFcompare.
  destruct x as [[]|[]| |[] m1 e1], y as [[]|[]| |[] m2 e2]; try done.
  all: change (Pos.compare_cont Eq m1 m2) with (Pos.compare m1 m2);
    change (Pos.compare_cont Eq m2 m1) with (Pos.compare m2 m1);
    rewrite (Z.compare_antisym e1 e2
               : IntDef.Z.compare e2 e1 = CompOpp (IntDef.Z.compare e1 e2)),
            (Pos.compare_antisym m1 m2);
    intros _ _; destruct (Z.compare e1 e2); try done; destruct (Pos.compare m1 m2); done.
Qed.

Lemma sort_cons (x : float64) (a : list float64) :
  Np.sort (x :: a) = Np.insert_sorted x (Np.sort a).
Proof. reflexivity. Qed.

Lemma insert_sorted_perm (x : float64) (l : list float64) :
  Np.insert_sorted x l ≡ₚ x :: l.
Proof.
  induction l as [|y l IH]; [done|]. cbn [Np.insert_sorted].
  destruct (F64.le x y); [done|]. by rewrite IH, Permutation_swap.
Qed.

Lemma sort_perm (a : list float64) : Np.sort a ≡ₚ a.
Proof.
  induction a as [|x a IH]; [done|]. by rewrite sort_cons, insert_sorted_perm, IH.
Qed.

Lemma insert_sorted_Sorted (x : float64) (l : list float64) :
  F64.isnan x = false -> List.Forall (fun d => F64.isnan d = false) l ->
  Sorted (fun a b => F64.le a b = true) l ->
  Sorted (fun a b => F64.le a b = true) (Np.insert_sorted x l).
Proof.
  intros Hx Hl Hs. induction Hs as [|y l Hs IH Hhd]; cbn [Np.insert_sorted].
  - by repeat constructor.
  - apply List.Forall_cons_iff in Hl as [Hy Hl].
    destruct (F64.le x y) eqn:Hxy.
    + constructor; [by constructor | by constructor].
    + constructor; [by apply IH|].
      destruct Hhd as [|z l' Hyz]; cbn [Np.insert_sorted].
      * constructor. by apply le_total.
      * destruct (F64.le x z); constructor; [by apply le_total | done].
Qed.

Lemma sort_Sorted (a : list float64) :
  List.Forall (fun d => F64.isnan d = false) a ->
  Sorted (fun a b => F64.le a b = true) (Np.sort a).
Proof.
  induction 1 as [|x a Hx Ha IH]; [constructor|].
  rewrite sort_cons. apply insert_sorted_Sorted; [done| |done].
  apply List.Forall_forall. intros d Hd. apply (proj1 (List.Forall_forall _ _) Ha).
  apply list_elem_of_In. rewrite <- (sort_perm a). by apply list_elem_of_In.
Qed.

Lemma existsb_isnan (a : list float64) :
  existsb F64.isnan a = true <-> List.Exists (fun d => F64.isnan d = true) a.
Proof.
  rewrite existsb_exists, List.Exists_exists. done.
Qed.

Lemma In_sort (y : float64) (a : list float64) : In y (Np.sort a) -> In y a.
Proof.
  intros H. apply list_elem_of_In. rewrite <- (sort_perm a). by apply list_elem_of_In.
Qed.

End Float64.

Lemma Np_less_spec (a : list float64) (t : float64) :
  Forall2 (fun d b => b = true <-> F64.lt d t = true) a (Np.less a t).
Proof.
  induction a as [|d a IH]; cbn; constructor; [done | exact IH].
Qed.

Lemma Np_less_length (a : list float64) (t : float64) : length (Np.less a t) = length a.
Proof. unfold Np.less. apply length_map. Qed.

(** ** Density filtering *)

(** C9. After a Poisson reconstruction that returns one density per vertex:
    when the density array is non-empty the handler flags vertex [i] exactly
    when its density is strictly below a threshold, in float64 comparison,
    and hands the flags to [remove_vertices_by_mask], so that the vertices
    left are the unflagged ones.  The threshold is computed from the
    densities of this very reconstruction: NaN when one of them is NaN (no
    vertex is then flagged); otherwise the float64 interpolation, at the
    fractional part of [(n - 1) * 0.01], between the entries of rank
    [floor ((n - 1) * 0.01)] and the next of the densities put in ascending
    order.  When the array is empty no removal is requested and the mesh is
    returned as it is. *)
Theorem density_filter_removes_below_quantile
    (o3d : Open3D) (pcd pcd1 pcd2 : PointCloud) (mesh : TriangleMesh)
    (densities : list float64) (s : St) :
  mask_removes o3d ->
  estimate_normals o3d pcd 0.1%Q 30 = Normal pcd1 ->
  orient_normals_consistent_tangent_plane o3d pcd1 15 = Normal pcd2 ->
  create_from_point_cloud_poisson o3d pcd2 9 0 1.1%Q false = Normal (mesh, densities) ->
  length densities = length (vertices mesh) ->
  exists (mesh' : TriangleMesh) (t : list event),
    create_mesh_from_point_cloud o3d pcd s
      = (Normal mesh', mkSt (fs s) (trace s ++ t) (input_path s) (output_path s)) /\
    (densities = [] ->
       mesh' = mesh /\
       t = [EvEstimateNormals 0.1%Q 30; EvOrientNormals 15; EvPoisson 9 0 1.1%Q false]) /\
    (densities <> [] ->
       exists (mask : list bool) (threshold : float64),
         t = [EvEstimateNormals 0.1%Q 30; EvOrientNormals 15; EvPoisson 9 0 1.1%Q false;
              EvRemoveVerticesByMask mask] /\
         Forall2 (fun d b => b = true <-> F64.lt d threshold = true) densities mask /\
         vertices mesh' = unmasked (vertices mesh) mask /\
         (List.Exists (fun d => F64.isnan d = true) densities ->
            threshold = F64.nan /\ List.Forall (fun b => b = false) mask) /\
         (List.Forall (fun d => F64.isnan d = false) densities ->
            exists ranked : list float64,
              ranked ≡ₚ densities /\
              Sorted (fun x y => F64.le x y = true) ranked /\
              threshold =
                let h := F64.mul (F64.of_Z (Z.of_nat (length densities - 1))) F64.c0_01 in
                let i := Z.to_nat (F64.floor h) in
                let g := F64.sub h (F64.of_Z (Z.of_nat i)) in
                let a := nth i ranked F64.nan in
                let b := nth (Nat.min (i + 1) (length densities - 1)) ranked F64.nan in
                if F64.le F64.c0_5 g
                then F64.sub b (F64.mul (F64.sub b a) (F64.sub F64.c1 g))
                else F64.add a (F64.mul (F64.sub b a) g))).
Proof.
  intros Hmask Hen Hon Hp Hlen.
  unfold create_mesh_from_point_cloud, pcd_estimate_normals,
    pcd_orient_normals_consistent_tangent_plane, mesh_create_from_point_cloud_poisson,
    mesh_remove_vertices_by_mask, bind, log, lift, ret.
  cbn [fs trace input_path output_path]. rewrite Hen, Hon, Hp.
  destruct densities as [|d ds] eqn:Hds.
  - cbn [length Nat.ltb Nat.leb]. eexists _, _. split; [|split; [|done]].
    + cbn [fs trace input_path output_path]. rewrite <- !app_assoc. reflexivity.
    + done.
  - assert (densities <> []) as Hne by (by rewrite Hds).
    rewrite <- Hds in *. clear Hds.
    assert (Nat.ltb 0 (length densities) = true) as ->
      by (by destruct densities).
    destruct (Hmask mesh (Np.less densities (Np.quantile densities F64.c0_01)))
      as (mesh' & Hrm & Hv).
    { by rewrite Np_less_length. }
    rewrite Hrm. eexists _, _. split; [|split; [done|]].
    + cbn [fs trace input_path output_path]. rewrite <- !app_assoc. reflexivity.
    + intros _. eexists _, _. split; [reflexivity|].
      split; [apply Np_less_spec|]. split; [exact Hv|]. split.
      * intros Hnan. apply existsb_isnan in Hnan.
        unfold Np.quantile. rewrite Hnan. split; [done|].
        unfold Np.less. apply List.Forall_forall. intros b Hb.
        apply in_map_iff in Hb as (x & <- & _). apply lt_nan.
      * intros Hfin. exists (Np.sort densities).
        split; [apply sort_perm|]. split; [by apply sort_Sorted|].
        unfold Np.quantile, Np.lerp.
        destruct (existsb F64.isnan densities) eqn:Hnan; [|reflexivity].
        apply existsb_isnan, List.Exists_exists in Hnan as (x & Hx & Hxnan).
        rewrite (proj1 (List.Forall_forall _ _) Hfin x Hx) in Hxnan. done.
Qed.

Lemma Fake_mask_removes : mask_removes Fake.o3d.
Proof.
  intros mesh mask Hlen. cbn. unfold Fake.by_mask.
  apply Nat.eqb_eq in Hlen. rewrite Hlen. eexists. split; reflexivity.
Qed.

Lemma density_filter_removes_below_quantile_witness :
  exists (mesh' : TriangleMesh) (t : list event),
    create_mesh_from_point_cloud Fake.o3d (Fake.decode [Byte.x05; Byte.x01; Byte.x03]) Fake.s0
      = (Normal mesh', mkSt ∅ t None None) /\
    vertices mesh' = [Fake.byte_point Byte.x05; Fake.byte_point Byte.x03].
Proof.
  destruct (density_filter_removes_below_quantile Fake.o3d
              (Fake.decode [Byte.x05; Byte.x01; Byte.x03])
              (mkPointCloud (points (Fake.decode [Byte.x05; Byte.x01; Byte.x03]))
                            [(0%Q, 0%Q, 1%Q); (0%Q, 0%Q, 1%Q); (0%Q, 0%Q, 1%Q)])
              (mkPointCloud (points (Fake.decode [Byte.x05; Byte.x01; Byte.x03]))
                            [(0%Q, 0%Q, 1%Q); (0%Q, 0%Q, 1%Q); (0%Q, 0%Q, 1%Q)])
              (mkTriangleMesh (points (Fake.decode [Byte.x05; Byte.x01; Byte.x03])) [])
              [F64.of_Z 5; F64.of_Z 1; F64.of_Z 3] Fake.s0
              Fake_mask_removes eq_refl eq_refl eq_refl eq_refl)
    as (mesh' & t & Hrun & _ & Hmask).
  exists mesh', t. split; [exact Hrun|].
  vm_compute in Hrun. by injection Hrun as <- _.
Defined.

(** The model rounds as NumPy does.  On the densities
    [1.0000000000000002, 1.0] the threshold is [1.0] and no vertex is
    flagged, where exact arithmetic would flag the second; on
    [-2^1023, 2^1023] the difference of the two ranks overflows, the
    threshold is infinite and both vertices are flagged. *)
Example quantile_rounds :
  Np.less [S754_finite false 4503599627370497 (-52); F64.c1]
          (Np.quantile [S754_finite false 4503599627370497 (-52); F64.c1] F64.c0_01)
    = [false; false].
Proof. vm_compute. reflexivity. Qed.

Example quantile_overflows :
  Np.quantile [S754_finite true 4503599627370496 971; S754_finite false 4503599627370496 971]
              F64.c0_01 = S754_infinity false /\
  Np.less [S754_finite true 4503599627370496 971; S754_finite false 4503599627370496 971]
          (S754_infinity false) = [true; true].
Proof. split; vm_compute; reflexivity. Qed.

(** ** Serialization *)

(** C10. The two branches on [return_format] make the same call,
    [write_triangle_mesh] on the output path and the mesh, and the handler
    is the uniform one, in which the format only names the extension of the
    output path and of the download name. *)
Theorem serialization_does_not_depend_on_format
    (rt : Runtime) (o3d : Open3D) (req : Request) (p : string) (mesh : TriangleMesh) (s : St) :
  serialize_mesh o3d "ply" p mesh = io_write_triangle_mesh o3d p mesh /\
  serialize_mesh o3d "obj" p mesh = io_write_triangle_mesh o3d p mesh /\
  clean_mesh_endpoint rt o3d req s = clean_mesh_endpoint_uniform rt o3d req s.
Proof.
  split; [reflexivity|]. split; [reflexivity|].
  unfold clean_mesh_endpoint, clean_mesh_endpoint_uniform, serialize_mesh.
  destruct (String.eqb (default "ply" (return_format req)) "ply"); reflexivity.
Qed.

(** ** More facts about the string primitives *)

Lemma substring_full (b : string) : String.substring 0 (String.length b) b = b.
Proof. induction b as [|c b IH]; simpl; [done | by rewrite IH]. Qed.

Lemma substring_append (a b : string) (m : nat) :
  String.substring (String.length a) m (a +:+ b) = String.substring 0 m b.
Proof. induction a as [|c a IH]; [done | exact IH]. Qed.

Lemma substring_split (s : string) (k : nat) :
  k <= String.length s ->
  s = String.substring 0 k s +:+ String.substring k (String.length s - k) s.
Proof.
  revert k. induction s as [|c s IH]; intros k Hk.
  - destruct k; [done | simpl in Hk; lia].
  - destruct k as [|k].
    + change (String.substring 0 0 (String c s)) with "".
      change ("" +:+ ?x) with x. by rewrite Nat.sub_0_r, substring_full.
    + simpl in Hk. cbn [String.substring String.length Nat.sub].
      change (String c ?x +:+ ?y) with (String c (x +:+ y)).
      f_equal. apply IH. lia.
Qed.

Lemma endswith_spec (s suffix : string) :
  Py.endswith s suffix = true <-> exists a, s = a +:+ suffix.
Proof.
  unfold Py.endswith. rewrite andb_true_iff, Nat.leb_le, String.eqb_eq. split.
  - intros [Hle Hsub].
    exists (String.substring 0 (String.length s - String.length suffix) s).
    pose proof (substring_split s (String.length s - String.length suffix)
                  ltac:(lia)) as H.
    replace (String.length s - (String.length s - String.length suffix))
      with (String.length suffix) in H by lia.
    by rewrite Hsub in H.
  - intros [a ->]. rewrite length_append. split; [lia|].
    replace (String.length a + String.length suffix - String.length suffix)
      with (String.length a) by lia.
    by rewrite substring_append, substring_full.
Qed.

Lemma append_cons (c : ascii) (a b : string) : String c a +:+ b = String c (a +:+ b).
Proof. reflexivity. Qed.

Lemma append_empty_l (b : string) : "" +:+ b = b.
Proof. reflexivity. Qed.

Lemma append_empty_r (a : string) : a +:+ "" = a.
Proof. induction a as [|c a IH]; [done|]. by rewrite append_cons, IH. Qed.

(** An occurrence of '.ply' that starts inside [c :: b] and ends in an
    appended '.ply' would have to overlap it, which '.ply' cannot. *)
Lemma prefix_ply_append (c : ascii) (b : string) :
  String.prefix ".ply" (String c b) = false ->
  String.prefix ".ply" (String c (b +:+ ".ply")) = false.
Proof.
  destruct b as [|c1 [|c2 [|c3 b]]];
    rewrite ?append_cons, ?append_empty_l; cbn [String.prefix];
    repeat (case_match; try done).
  intros H'. by destruct b.
Qed.

(** When '.ply' occurs in a name only as its suffix, replacing every
    occurrence swaps the suffix. *)
Lemma replace_suffix_only (base new : string) :
  Py.contains base ".ply" = false ->
  Py.replace (base +:+ ".ply") ".ply" new = base +:+ new.
Proof.
  unfold Py.replace. induction base as [|c base IH]; intros Hno.
  - rewrite !append_empty_l. cbn [Py.replace_from String.prefix String.length].
    repeat case_match; try done. cbn. by rewrite append_empty_r.
  - cbn [Py.contains] in Hno. apply orb_false_iff in Hno as [Hpre Hrest].
    rewrite !append_cons.
    cbn [Py.replace_from]. rewrite (prefix_ply_append c base Hpre).
    by rewrite (IH Hrest).
Qed.

(** ** The status of a response *)

Lemma cleanup_returns (s : St) : exists s', cleanup s = (Normal tt, s').
Proof.
  unfold cleanup, bind, get_input_path, os_path_exists, os_unlink, ret.
  destruct (input_path s) as [p|]; [|by eexists].
  destruct (negb (String.eqb p "")); [|by eexists].
  case_bool_decide as Hex; [|by eexists].
  destruct Hex as [b Hb]. rewrite Hb. by eexists.
Qed.

Lemma guarded_status (body : M Response) (pre : string) (s : St) :
  http_status
    (try_finally
       (try_except body (fun e => raise (HTTPException 500 (pre +:+ str e))))
       cleanup s) = 200%Z \/
  http_status
    (try_finally
       (try_except body (fun e => raise (HTTPException 500 (pre +:+ str e))))
       cleanup s) = 500%Z.
Proof.
  unfold try_finally, try_except, raise.
  destruct (body s) as [[resp|e] s1];
    destruct (cleanup_returns s1) as [s2 ->]; unfold http_status; cbn [fst snd].
  - case_bool_decide; auto.
  - auto.
Qed.

Lemma point_cloud_status_after_validation
    (rt : Runtime) (o3d : Open3D) (req : Request) (s : St) :
  Py.endswith (filename req) ".ply" = true ->
  http_status (clean_point_cloud_endpoint rt o3d req s) = 200%Z \/
  http_status (clean_point_cloud_endpoint rt o3d req s) = 500%Z.
Proof.
  intros Hext. unfold clean_point_cloud_endpoint. rewrite Hext. cbn [negb].
  unfold set_input_path, set_output_path. unfold bind at 1 2 7 8.
  apply guarded_status.
Qed.

Lemma mesh_status_after_validation
    (rt : Runtime) (o3d : Open3D) (req : Request) (s : St) :
  Py.endswith (filename req) ".ply" = true ->
  Py.str_in (default "ply" (return_format req)) ["ply"; "obj"] = true ->
  http_status (clean_mesh_endpoint rt o3d req s) = 200%Z \/
  http_status (clean_mesh_endpoint rt o3d req s) = 500%Z.
Proof.
  intros Hext Hfmt. unfold clean_mesh_endpoint. rewrite Hext, Hfmt. cbn [negb].
  unfold set_input_path, set_output_path. unfold bind at 1 2 11 12.
  apply guarded_status.
Qed.

Lemma str_in_formats (rf : string) :
  Py.str_in rf ["ply"; "obj"] = false <-> rf <> "ply" /\ rf <> "obj".
Proof.
  unfold Py.str_in. cbn [existsb]. rewrite !orb_false_iff, !String.eqb_neq. tauto.
Qed.

(** Either handler answers 200, 400 or 500, and 400 for a failed validation
    of the request only: [/clean-point-cloud] exactly when the file name
    does not end in '.ply'; [/clean-mesh] exactly when the name does not end
    in '.ply' or the format (ply when omitted) is neither ply nor obj.
    Whatever is raised once the [try] block is entered is answered 500. *)
Theorem status_400_only_from_validation
    (rt : Runtime) (o3d : Open3D) (req : Request) (s : St) :
  (http_status (clean_point_cloud_endpoint rt o3d req s) = 400%Z
     <-> ~ exists a, filename req = a +:+ ".ply") /\
  (http_status (clean_mesh_endpoint rt o3d req s) = 400%Z
     <-> (~ exists a, filename req = a +:+ ".ply") \/
         (default "ply" (return_format req) <> "ply" /\
          default "ply" (return_format req) <> "obj")) /\
  (http_status (clean_point_cloud_endpoint rt o3d req s) = 200%Z \/
   http_status (clean_point_cloud_endpoint rt o3d req s) = 400%Z \/
   http_status (clean_point_cloud_endpoint rt o3d req s) = 500%Z) /\
  (http_status (clean_mesh_endpoint rt o3d req s) = 200%Z \/
   http_status (clean_mesh_endpoint rt o3d req s) = 400%Z \/
   http_status (clean_mesh_endpoint rt o3d req s) = 500%Z).
Proof.
  rewrite <- endswith_spec, <- str_in_formats.
  pose proof (point_cloud_status_after_validation rt o3d req s) as Hpc.
  pose proof (mesh_status_after_validation rt o3d req s) as Hm.
  assert (Py.endswith (filename req) ".ply" = false ->
          http_status (clean_point_cloud_endpoint rt o3d req s) = 400%Z) as Hpc'.
  { intros Hext. unfold clean_point_cloud_endpoint. by rewrite Hext. }
  assert (Py.endswith (filename req) ".ply" = false ->
          http_status (clean_mesh_endpoint rt o3d req s) = 400%Z) as Hm'.
  { intros Hext. unfold clean_mesh_endpoint. by rewrite Hext. }
  assert (Py.endswith (filename req) ".ply" = true ->
          Py.str_in (default "ply" (return_format req)) ["ply"; "obj"] = false ->
          http_status (clean_mesh_endpoint rt o3d req s) = 400%Z) as Hm''.
  { intros Hext Hfmt. unfold clean_mesh_endpoint. by rewrite Hext, Hfmt. }
  set (spc := http_status (clean_point_cloud_endpoint rt o3d req s)) in *.
  set (sm := http_status (clean_mesh_endpoint rt o3d req s)) in *.
  clearbody spc sm.
  destruct (Py.endswith (filename req) ".ply");
    destruct (Py.str_in (default "ply" (return_format req)) ["ply"; "obj"]);
    intuition (first [lia | congruence]).
Qed.

(** ** Calls that only log *)

Section Loggers.

Context (o3d : Open3D).

Lemma extend_nil (s : St) : extend s [] = s.
Proof. destruct s. unfold extend. cbn. by rewrite app_nil_r. Qed.

Lemma extend_extend (s : St) (t1 t2 : list event) :
  extend (extend s t1) t2 = extend s (t1 ++ t2).
Proof. unfold extend. cbn. by rewrite app_assoc. Qed.

Lemma logger_ret {A} (a : A) : logger (ret a).
Proof. intros s. unfold ret, result_of, events_of. cbn. by rewrite extend_nil. Qed.

Lemma logger_lift {A} (r : outcome A) : logger (lift r).
Proof. intros s. unfold lift, result_of, events_of. cbn. by rewrite extend_nil. Qed.

Lemma logger_log (e : event) : logger (log e).
Proof. intros s. reflexivity. Qed.

Lemma logger_bind {A B} (m : M A) (k : A -> M B) :
  logger m -> (forall a, logger (k a)) -> logger (bind m k).
Proof.
  intros Hm Hk s. unfold result_of, events_of, bind.
  rewrite (Hm s), (Hm blank). destruct (result_of m) as [a|e].
  - rewrite (Hk a (extend s _)), (Hk a (extend blank _)). cbn [fst snd].
    rewrite extend_extend. unfold extend at 2 3. by cbn.
  - cbn [fst snd]. unfold extend at 2. by cbn.
Qed.

Lemma logger_call {A} (e : event) (r : outcome A) : logger (do_ log e ;; lift r).
Proof. apply logger_bind; [apply logger_log | intros; apply logger_lift]. Qed.

Lemma logger_clean_point_cloud (pcd : PointCloud) : logger (clean_point_cloud o3d pcd).
Proof.
  intros s. unfold result_of, events_of. by rewrite !clean_point_cloud_run.
Qed.

Lemma logger_create_mesh (pcd : PointCloud) :
  logger (create_mesh_from_point_cloud o3d pcd).
Proof.
  unfold create_mesh_from_point_cloud, pcd_estimate_normals,
    pcd_orient_normals_consistent_tangent_plane,
    mesh_create_from_point_cloud_poisson, mesh_remove_vertices_by_mask.
  apply logger_bind; [apply logger_call | intros pcd1].
  apply logger_bind; [apply logger_call | intros pcd2].
  apply logger_bind; [apply logger_call | intros [mesh ds]].
  destruct (Nat.ltb 0 (length ds)); [apply logger_call | apply logger_ret].
Qed.

Lemma logger_clean_mesh (mesh : TriangleMesh) : logger (clean_mesh o3d mesh).
Proof.
  unfold clean_mesh, mesh_call.
  repeat (apply logger_bind; [apply logger_call | intros ?]).
  apply logger_ret.
Qed.

End Loggers.

Lemma unlink_restores (m : gmap string bytes) (p : string) (c : bytes) :
  m !! p = None -> delete p (<[p := c]> (<[p := []]> m)) = m.
Proof.
  intros Hp. apply map_eq. intros q. destruct (decide (p = q)) as [<-|Hq].
  - by rewrite lookup_delete_eq.
  - by rewrite lookup_delete_ne, !lookup_insert_ne.
Qed.

(** ** Mesh repair *)

Ltac steps_done :=
  unfold pipeline, mesh_steps; cbn [take foldl];
  repeat match goal with H : _ = Normal _ |- _ => rewrite H end; done.

(** [clean_mesh] runs the six repairs of the source in its order, each on
    the mesh the one before returned, and stops at the first one that
    raises: it returns what that chain gives, and the calls it has made when
    it returns are the first [k] of the six and no other, where [k] is 6 on
    a normal return and, when the exception [e] leaves it, one more than the
    number of repairs that returned before the one that raised [e]. *)
Theorem clean_mesh_runs_steps_in_order (o3d : Open3D) (mesh : TriangleMesh) (s : St) :
  exists k : nat,
    clean_mesh o3d mesh s
      = (pipeline (mesh_steps o3d) mesh, extend s (take k mesh_events)) /\
    (forall m', pipeline (mesh_steps o3d) mesh = Normal m' -> k = 6) /\
    (forall e, pipeline (mesh_steps o3d) mesh = Raised e ->
       exists (j : nat) (step : TriangleMesh -> outcome TriangleMesh) (m0 : TriangleMesh),
         k = S j /\
         mesh_steps o3d !! j = Some step /\
         pipeline (take j (mesh_steps o3d)) mesh = Normal m0 /\
         step m0 = Raised e).
Proof.
  unfold clean_mesh, mesh_call, bind, log, lift, ret, extend, pipeline.
  cbn [fs trace input_path output_path mesh_steps foldl].
  destruct (remove_degenerate_triangles o3d mesh) as [m1|e] eqn:H1;
    cbn [fs trace input_path output_path].
  2: { exists 1. split; [done|]. split; [done|]. intros ? [= <-].
       exists 0, (remove_degenerate_triangles o3d), mesh. by repeat split. }
  destruct (remove_duplicated_triangles o3d m1) as [m2|e] eqn:H2;
    cbn [fs trace input_path output_path].
  2: { exists 2. split; [by rewrite <- !app_assoc|]. split; [done|]. intros ? [= <-].
       exists 1, (remove_duplicated_triangles o3d), m1.
       split; [done|]. split; [done|]. split; [steps_done | done]. }
  destruct (remove_duplicated_vertices o3d m2) as [m3|e] eqn:H3;
    cbn [fs trace input_path output_path].
  2: { exists 3. split; [by rewrite <- !app_assoc|]. split; [done|]. intros ? [= <-].
       exists 2, (remove_duplicated_vertices o3d), m2.
       split; [done|]. split; [done|]. split; [steps_done | done]. }
  destruct (remove_non_manifold_edges o3d m3) as [m4|e] eqn:H4;
    cbn [fs trace input_path output_path].
  2: { exists 4. split; [by rewrite <- !app_assoc|]. split; [done|]. intros ? [= <-].
       exists 3, (remove_non_manifold_edges o3d), m3.
       split; [done|]. split; [done|]. split; [steps_done | done]. }
  destruct (filter_smooth_simple o3d m4 5) as [m5|e] eqn:H5;
    cbn [fs trace input_path output_path].
  2: { exists 5. split; [by rewrite <- !app_assoc|]. split; [done|]. intros ? [= <-].
       exists 4, (fun m => filter_smooth_simple o3d m 5), m4.
       split; [done|]. split; [done|]. split; [steps_done | done]. }
  destruct (fill_holes o3d m5) as [m6|e] eqn:H6;
    cbn [fs trace input_path output_path].
  - exists 6. split; [by rewrite <- !app_assoc|]. split; done.
  - exists 6. split; [by rewrite <- !app_assoc|]. split; [done|]. intros ? [= <-].
    exists 5, (fill_holes o3d), m5.
    split; [done|]. split; [done|]. split; [steps_done | done].
Qed.

(** What [clean_mesh] returns, whatever the state. *)
Lemma clean_mesh_result (o3d : Open3D) (mesh : TriangleMesh) (s : St) :
  (clean_mesh o3d mesh s).1 = pipeline (mesh_steps o3d) mesh.
Proof.
  unfold clean_mesh, mesh_call, bind, log, lift, ret, pipeline.
  cbn [fs trace input_path output_path mesh_steps foldl].
  repeat (match goal with
          | |- context [match ?f ?m with Normal _ => _ | Raised _ => _ end] =>
              destruct (f m); cbn [fs trace input_path output_path fst]
          end; try done).
Qed.

(** Without [fill_holes], [clean_mesh] raises on every mesh. *)
Lemma clean_mesh_raises (o3d : Open3D) (mesh : TriangleMesh) :
  lacks_fill_holes o3d -> exists e, result_of (clean_mesh o3d mesh) = Raised e.
Proof.
  intros Hlack. unfold result_of. rewrite clean_mesh_result.
  unfold pipeline, mesh_steps. cbn [foldl].
  destruct (remove_degenerate_triangles o3d mesh) as [m1|e]; [|by eexists].
  destruct (remove_duplicated_triangles o3d m1) as [m2|e]; [|by eexists].
  destruct (remove_duplicated_vertices o3d m2) as [m3|e]; [|by eexists].
  destruct (remove_non_manifold_edges o3d m3) as [m4|e]; [|by eexists].
  destruct (filter_smooth_simple o3d m4 5) as [m5|e]; [|by eexists].
  destruct (Hlack m5) as [e ->]. by eexists.
Qed.

(** ** A scan that is reconstructed *)

(** A scan dense enough to be reconstructed is answered 500.  For a '.ply'
    upload that decodes to a non-empty cloud of which cleaning leaves 1000
    points or more and whose reconstruction returns a mesh, [clean_mesh]
    raises (its last repair, [fill_holes], is no method of Open3D's
    [TriangleMesh]); the handler wraps the exception into a 500, never
    assigns [output_path] and serializes nothing; the temporary input file
    is removed and the file system is the one the request found. *)
Theorem dense_scan_is_answered_500
    (rt : Runtime) (o3d : Open3D) (req : Request) (rf p : string)
    (pcd cleaned : PointCloud) (mesh : TriangleMesh) (s : St) :
  Py.endswith (filename req) ".ply" = true ->
  default "ply" (return_format req) = rf ->
  Py.str_in rf ["ply"; "obj"] = true ->
  read_fault rt = None -> write_fault rt = None ->
  tmp_fresh rt s ->
  tmp_base rt (fs s) +:+ ".ply" = p ->
  read_point_cloud o3d (Some (content req)) = Normal pcd ->
  points pcd <> [] ->
  (remove_radius_outlier o3d (remove_statistical_outlier o3d pcd 20 2.0%Q).1 16 0.05%Q).1
    = cleaned ->
  1000 <= length (points cleaned) ->
  result_of (create_mesh_from_point_cloud o3d cleaned) = Normal mesh ->
  lacks_fill_holes o3d ->
  exists e : exn,
    result_of (clean_mesh o3d mesh) = Raised e /\
    clean_mesh_endpoint rt o3d req s =
      (Raised (HTTPException 500 ("Error processing mesh: " +:+ str e)),
       mkSt (fs s)
            (trace s
             ++ [EvCreate p; EvWrite p; EvReadPointCloud p;
                 EvStatisticalOutlier 20 2.0%Q; EvRadiusOutlier 16 0.05%Q]
             ++ events_of (create_mesh_from_point_cloud o3d cleaned)
             ++ events_of (clean_mesh o3d mesh)
             ++ [EvUnlink p])%list
            (Some p) None) /\
    http_status (clean_mesh_endpoint rt o3d req s) = 500%Z.
Proof.
  intros Hext Hrf Hfmt Hr Hw Hfresh Hp Hdec Hne Hcl Hmany Hmesh Hlack.
  destruct (clean_mesh_raises o3d mesh Hlack) as [e He]. exists e. split; [exact He|].
  unfold tmp_fresh in Hfresh. subst p.
  set (p := tmp_base rt (fs s) +:+ ".ply") in *.
  assert (String.eqb p "" = false) as Hpne by (by apply append_nonempty).
  assert (clean_mesh_endpoint rt o3d req s =
      (Raised (HTTPException 500 ("Error processing mesh: " +:+ str e)),
       mkSt (fs s)
            (trace s
             ++ [EvCreate p; EvWrite p; EvReadPointCloud p;
                 EvStatisticalOutlier 20 2.0%Q; EvRadiusOutlier 16 0.05%Q]
             ++ events_of (create_mesh_from_point_cloud o3d cleaned)
             ++ events_of (clean_mesh o3d mesh)
             ++ [EvUnlink p])%list
            (Some p) None)) as Hrun.
  { unfold_handler. rewrite Hext, Hrf, Hfmt, Hr, Hw. st. fold p. run.
    rewrite Hdec, (nonempty_length _ Hne). run.
    rewrite clean_point_cloud_run, Hcl. run.
    apply Nat.ltb_ge in Hmany. rewrite Hmany.
    rewrite (logger_create_mesh o3d cleaned), Hmesh. unfold extend. run.
    rewrite (logger_clean_mesh o3d mesh), He. unfold extend. run.
    rewrite Hpne. run. rewrite unlink_restores by done.
    by rewrite <- !app_assoc. }
  split; [exact Hrun|]. by rewrite Hrun.
Qed.

Lemma Fake_lacks_fill_holes : lacks_fill_holes Fake.o3d_lenient.
Proof. intros mesh. by eexists. Qed.

Lemma dense_scan_is_answered_500_witness :
  http_status (clean_mesh_endpoint Fake.rt Fake.o3d_lenient
                 (mkRequest "scan.ply" (replicate 1000 Byte.x07) None) Fake.s0) = 500%Z.
Proof.
  destruct (dense_scan_is_answered_500 Fake.rt Fake.o3d_lenient
              (mkRequest "scan.ply" (replicate 1000 Byte.x07) None)
              "ply" "/tmp/tmpk3x9w2ab.ply"
              (Fake.decode (replicate 1000 Byte.x07))
              (mkPointCloud (map Fake.byte_point (replicate 1000 Byte.x07)) [])
              (mkTriangleMesh (map Fake.byte_point (replicate 1000 Byte.x07)) [])
              Fake.s0
              eq_refl eq_refl eq_refl eq_refl eq_refl (lookup_empty _) eq_refl)
    as (e & _ & _ & Hstatus).
  - vm_compute. reflexivity.
  - vm_compute. discriminate.
  - vm_compute. reflexivity.
  - vm_compute. apply le_n.
  - vm_compute. reflexivity.
  - exact Fake_lacks_fill_holes.
  - exact Hstatus.
Defined.

Lemma bind_normal {A B} (m : M A) (k : A -> M B) (s : St) (b : B) :
  (bind m k s).1 = Normal b ->
  exists a s', m s = (Normal a, s') /\ (k a s').1 = Normal b.
Proof.
  unfold bind. destruct (m s) as [[a|e] s']; [|done]. intros H. by exists a, s'.
Qed.

Lemma guarded_normal (body : M Response) (pre : string) (s : St) (resp : Response) :
  (try_finally
     (try_except body (fun e => raise (HTTPException 500 (pre +:+ str e))))
     cleanup s).1 = Normal resp ->
  (body s).1 = Normal resp.
Proof.
  unfold try_finally, try_except, raise.
  destruct (body s) as [[r|e] s1];
    destruct (cleanup_returns s1) as [s2 ->]; cbn [fst]; done.
Qed.

(** [/clean-mesh] never answers 200: with [fill_holes] missing from
    Open3D's [TriangleMesh], no request whatever makes the handler return a
    response; it answers 400 to a request that fails validation and 500 to
    every other. *)
Theorem mesh_endpoint_never_answers_200
    (rt : Runtime) (o3d : Open3D) (req : Request) (s : St) :
  lacks_fill_holes o3d ->
  (forall resp, (clean_mesh_endpoint rt o3d req s).1 <> Normal resp) /\
  (http_status (clean_mesh_endpoint rt o3d req s) = 400%Z \/
   http_status (clean_mesh_endpoint rt o3d req s) = 500%Z).
Proof.
  intros Hlack.
  assert (forall resp, (clean_mesh_endpoint rt o3d req s).1 <> Normal resp) as Hnever.
  { intros resp. unfold clean_mesh_endpoint.
    destruct (Py.endswith (filename req) ".ply"); cbn [negb]; [|done].
    destruct (Py.str_in _ _); cbn [negb]; [|done].
    unfold set_input_path, set_output_path. unfold bind at 1 2.
    intros H. apply guarded_normal in H.
    apply bind_normal in H as (p & s1 & _ & H).
    apply bind_normal in H as (pcd & s2 & _ & H).
    destruct (Nat.eqb _ 0); [done|].
    apply bind_normal in H as (pcd' & s3 & _ & H).
    destruct (Nat.ltb _ 1000); [done|].
    apply bind_normal in H as (mesh & s4 & _ & H).
    apply bind_normal in H as (mesh' & s5 & Hcm & _).
    destruct (clean_mesh_raises o3d mesh Hlack) as [e He].
    rewrite (logger_clean_mesh o3d mesh), He in Hcm. done. }
  split; [exact Hnever|].
  unfold http_status.
  destruct (clean_mesh_endpoint rt o3d req s) as [[resp|e] s'] eqn:Hrun.
  { exfalso. by apply (Hnever resp). }
  cbn [fst]. revert Hrun. unfold clean_mesh_endpoint.
  destruct (Py.endswith (filename req) ".ply"); cbn [negb];
    [|intros [= <- _]; by left].
  destruct (Py.str_in _ _); cbn [negb]; [|intros [= <- _]; by left].
  unfold set_input_path, set_output_path. unfold bind at 1 2.
  unfold try_finally, try_except, raise.
  match goal with |- context [match ?b ?s0 with _ => _ end] => destruct (b s0) as [[r|e'] s1] end;
    destruct (cleanup_returns s1) as [s2 ->]; intros [= <- _]; by right.
Qed.

Lemma mesh_endpoint_never_answers_200_witness :
  http_status (clean_mesh_endpoint Fake.rt Fake.o3d_lenient
                 (mkRequest "scan.ply" (replicate 1000 Byte.x07) (Some "obj")) Fake.s0)
    = 400%Z \/
  http_status (clean_mesh_endpoint Fake.rt Fake.o3d_lenient
                 (mkRequest "scan.ply" (replicate 1000 Byte.x07) (Some "obj")) Fake.s0)
    = 500%Z.
Proof.
  exact (proj2 (mesh_endpoint_never_answers_200 Fake.rt Fake.o3d_lenient
                  (mkRequest "scan.ply" (replicate 1000 Byte.x07) (Some "obj")) Fake.s0
                  Fake_lacks_fill_holes)).
Defined.

(** ** A scan that is turned down *)

(** A scan rejected for being empty, or for having fewer than 1000 points
    once cleaned, costs nothing: the file system is, when the handler
    returns, the one the request found (no output file, no temporary file
    left), the only file unlinked being the temporary input file.  The same
    holds of [/clean-point-cloud] for the empty scan. *)
Theorem rejected_scan_leaves_no_file
    (rt : Runtime) (o3d : Open3D) (req : Request) (pcd cleaned : PointCloud) (s : St) :
  Py.endswith (filename req) ".ply" = true ->
  Py.str_in (default "ply" (return_format req)) ["ply"; "obj"] = true ->
  read_fault rt = None -> write_fault rt = None ->
  tmp_fresh rt s ->
  read_point_cloud o3d (Some (content req)) = Normal pcd ->
  (remove_radius_outlier o3d (remove_statistical_outlier o3d pcd 20 2.0%Q).1 16 0.05%Q).1
    = cleaned ->
  points pcd = [] \/ length (points cleaned) < 1000 ->
  fs (clean_mesh_endpoint rt o3d req s).2 = fs s /\
  unlinked (drop (length (trace s)) (trace (clean_mesh_endpoint rt o3d req s).2))
    = [tmp_base rt (fs s) +:+ ".ply"] /\
  (points pcd = [] -> fs (clean_point_cloud_endpoint rt o3d req s).2 = fs s).
Proof.
  intros Hext Hfmt Hr Hw Hfresh Hdec Hcl Hrej. unfold tmp_fresh in Hfresh.
  unfold_handler. rewrite Hext, Hfmt, Hr, Hw. run. rewrite Hdec.
  destruct (Nat.eqb (length (points pcd)) 0) eqn:Hemp; run.
  - rewrite !unlink_restores by done. rewrite <- !app_assoc, drop_app_length.
    done.
  - rewrite clean_point_cloud_run, Hcl. run.
    destruct Hrej as [Hnil | Hfew]; [by rewrite Hnil in Hemp|].
    apply Nat.ltb_lt in Hfew. rewrite Hfew. run.
    rewrite !unlink_restores by done. rewrite <- !app_assoc, drop_app_length.
    split; [done|]. split; [done|]. intros Hnil. by rewrite Hnil in Hemp.
Qed.

Lemma rejected_scan_leaves_no_file_witness :
  fs (clean_mesh_endpoint Fake.rt Fake.o3d
        (mkRequest "scan.ply" [Byte.x01; Byte.x02; Byte.x03] (Some "obj")) Fake.s0).2 = ∅.
Proof.
  refine (proj1 (rejected_scan_leaves_no_file Fake.rt Fake.o3d
                   (mkRequest "scan.ply" [Byte.x01; Byte.x02; Byte.x03] (Some "obj"))
                   (Fake.decode [Byte.x01; Byte.x02; Byte.x03])
                   _ Fake.s0
                   eq_refl eq_refl eq_refl eq_refl (lookup_empty _) eq_refl eq_refl _)).
  right. vm_compute. lia.
Defined.

(** ** The output path *)

(** A response returned by a handler names the path computed by
    [input_path.replace]. *)
Lemma response_names_replaced_path
    (rt : Runtime) (o3d : Open3D) (req : Request) (rf : string) (s : St) :
  Py.endswith (filename req) ".ply" = true ->
  default "ply" (return_format req) = rf ->
  Py.str_in rf ["ply"; "obj"] = true ->
  read_fault rt = None -> write_fault rt = None ->
  tmp_fresh rt s ->
  forall resp,
    ((clean_mesh_endpoint rt o3d req s).1 = Normal resp ->
       path resp = Py.replace (tmp_base rt (fs s) +:+ ".ply") ".ply" ("_cleaned." +:+ rf)) /\
    ((clean_point_cloud_endpoint rt o3d req s).1 = Normal resp ->
       path resp = Py.replace (tmp_base rt (fs s) +:+ ".ply") ".ply" "_cleaned.ply").
Proof.
  intros Hext Hrf Hfmt Hr Hw Hfresh resp. split.
  - assert (Py.replace (tmp_base rt (fs s) +:+ ".ply") ".ply" ("_cleaned." +:+ rf)
            <> tmp_base rt (fs s) +:+ ".ply") as Hdiff
      by apply replace_ply_differs, cleaned_suffix_long.
    revert resp. unfold clean_mesh_endpoint. rewrite Hext, Hrf, Hfmt.
    unfold set_input_path, set_output_path. unfold bind at 1 2. cbn [negb].
    eapply (guarded_frame rt req _ "Error processing mesh: "
              (fun input_path => _) (mkSt (fs s) (trace s) None None));
      [done | done | done | exact Hdiff | | reflexivity].
    cbn beta.
    eapply frames_bind; [apply frames_io_read_point_cloud | intros pcd _].
    destruct (Nat.eqb _ 0); [apply frames_raise|].
    eapply frames_bind; [apply frames_clean_point_cloud | intros pcd' _].
    destruct (Nat.ltb _ 1000); [apply frames_raise|].
    eapply frames_bind; [apply frames_create_mesh | intros mesh _].
    eapply frames_bind; [apply frames_clean_mesh | intros mesh' _].
    eapply frames_bind; [apply frames_set_output_path | intros _ _].
    eapply frames_bind; [|intros _ _; by apply frames_ret].
    unfold serialize_mesh, io_write_triangle_mesh.
    destruct (String.eqb rf "ply"); by apply frames_io_write.
  - assert (Py.replace (tmp_base rt (fs s) +:+ ".ply") ".ply" "_cleaned.ply"
            <> tmp_base rt (fs s) +:+ ".ply") as Hdiff
      by (apply replace_ply_differs; simpl; lia).
    revert resp. unfold clean_point_cloud_endpoint. rewrite Hext.
    unfold set_input_path, set_output_path. unfold bind at 1 2. cbn [negb].
    eapply (guarded_frame rt req _ "Error processing point cloud: "
              (fun input_path => _) (mkSt (fs s) (trace s) None None));
      [done | done | done | exact Hdiff | | reflexivity].
    cbn beta.
    eapply frames_bind; [apply frames_io_read_point_cloud | intros pcd _].
    destruct (Nat.eqb _ 0); [apply frames_raise|].
    eapply frames_bind; [apply frames_clean_point_cloud | intros pcd' _].
    eapply frames_bind; [apply frames_set_output_path | intros _ _].
    eapply frames_bind; [|intros _ _; by apply frames_ret].
    by apply frames_io_write.
Qed.

(** The file a handler sends lies beside the temporary input file, under
    the same name with '.ply' swapped for '_cleaned.' and the format,
    provided the name tempfile chose holds no '.ply' before its suffix
    ([str.replace] rewrites every occurrence, a directory's included). *)
Theorem response_path_swaps_the_suffix
    (rt : Runtime) (o3d : Open3D) (req : Request) (rf : string) (s : St) :
  Py.endswith (filename req) ".ply" = true ->
  default "ply" (return_format req) = rf ->
  Py.str_in rf ["ply"; "obj"] = true ->
  read_fault rt = None -> write_fault rt = None ->
  tmp_fresh rt s ->
  Py.contains (tmp_base rt (fs s)) ".ply" = false ->
  forall resp,
    ((clean_mesh_endpoint rt o3d req s).1 = Normal resp ->
       path resp = tmp_base rt (fs s) +:+ "_cleaned." +:+ rf) /\
    ((clean_point_cloud_endpoint rt o3d req s).1 = Normal resp ->
       path resp = tmp_base rt (fs s) +:+ "_cleaned.ply").
Proof.
  intros Hext Hrf Hfmt Hr Hw Hfresh Hno resp.
  destruct (response_names_replaced_path rt o3d req rf s Hext Hrf Hfmt Hr Hw Hfresh resp)
    as [Hm Hpc].
  rewrite !replace_suffix_only in * by done. by split.
Qed.

Lemma response_path_swaps_the_suffix_witness :
  path (FileResponse "/tmp/tmpk3x9w2ab_cleaned.ply" "application/octet-stream"
          "scan_cleaned.ply")
    = "/tmp/tmpk3x9w2ab" +:+ "_cleaned.ply".
Proof.
  refine (proj2 (response_path_swaps_the_suffix Fake.rt Fake.o3d_lenient
                   (mkRequest "scan.ply" [Byte.x07] None) "ply" Fake.s0
                   eq_refl eq_refl eq_refl eq_refl eq_refl (lookup_empty _) eq_refl
                   (FileResponse "/tmp/tmpk3x9w2ab_cleaned.ply" "application/octet-stream"
                      "scan_cleaned.ply")) _).
  vm_compute. reflexivity.
Defined.

(** ** Vertices of equal density *)

Lemma unmasked_none {A} (l : list A) (mask : list bool) :
  length mask = length l -> List.Forall (fun b => b = false) mask -> unmasked l mask = l.
Proof.
  revert mask. induction l as [|x l IH]; intros [|b mask] Hlen Hall; cbn in *; try lia.
  - done.
  - inversion Hall as [|? ? -> Hall']. f_equal. apply IH; [lia | done].
Qed.

Lemma create_mesh_filters (o3d : Open3D) (pcd pcd1 pcd2 : PointCloud)
    (mesh : TriangleMesh) (densities : list float64) (s : St) :
  estimate_normals o3d pcd 0.1%Q 30 = Normal pcd1 ->
  orient_normals_consistent_tangent_plane o3d pcd1 15 = Normal pcd2 ->
  create_from_point_cloud_poisson o3d pcd2 9 0 1.1%Q false = Normal (mesh, densities) ->
  densities <> [] ->
  (create_mesh_from_point_cloud o3d pcd s).1
    = remove_vertices_by_mask o3d mesh (Np.less densities (Np.quantile densities F64.c0_01)).
Proof.
  intros Hen Hon Hp Hne.
  unfold create_mesh_from_point_cloud, pcd_estimate_normals,
    pcd_orient_normals_consistent_tangent_plane, mesh_create_from_point_cloud_poisson,
    mesh_remove_vertices_by_mask, bind, log, lift, ret.
  cbn [fs trace input_path output_path]. rewrite Hen, Hon, Hp.
  destruct densities as [|d ds]; [done|]. reflexivity.
Qed.

Lemma lerp_nan_l (b t : float64) : Np.lerp F64.nan b t = F64.nan.
Proof.
  unfold Np.lerp. replace (F64.sub b F64.nan) with F64.nan by (by destruct b).
  destruct (F64.le F64.c0_5 t); [by destruct b | done].
Qed.

Lemma lerp_nan_r (a t : float64) : Np.lerp a F64.nan t = F64.nan.
Proof.
  unfold Np.lerp. destruct (F64.le F64.c0_5 t); [done | by destruct a].
Qed.

(** The quantile of floats that are all equal is not above them. *)
Lemma quantile_same (densities : list float64) (q d d0 : float64) :
  (forall x, In x densities -> F64.eqb x d0 = true) ->
  F64.eqb d d0 = true ->
  F64.lt d (Np.quantile densities q) = false.
Proof.
  intros Heq Hd. unfold Np.quantile. cbv zeta.
  destruct (existsb F64.isnan densities); [apply lt_nan|].
  match goal with |- context [Np.lerp (nth ?i _ _) (nth ?j _ _) ?g] =>
    destruct (nth_in_or_default i (Np.sort densities) F64.nan) as [Ha| ->];
    [|rewrite lerp_nan_l; apply lt_nan];
    destruct (nth_in_or_default j (Np.sort densities) F64.nan) as [Hb| ->];
    [|rewrite lerp_nan_r; apply lt_nan]
  end.
  apply (lerp_same d _ _ _ d0); [done | by apply Heq, In_sort | by apply Heq, In_sort].
Qed.

(** When the reconstruction gives every vertex the same density, the filter
    removes none: the comparison with the quantile is strict. *)
Theorem equal_densities_remove_nothing
    (o3d : Open3D) (pcd pcd1 pcd2 : PointCloud) (mesh : TriangleMesh)
    (densities : list float64) (d0 : float64) (s : St) :
  mask_removes o3d ->
  estimate_normals o3d pcd 0.1%Q 30 = Normal pcd1 ->
  orient_normals_consistent_tangent_plane o3d pcd1 15 = Normal pcd2 ->
  create_from_point_cloud_poisson o3d pcd2 9 0 1.1%Q false = Normal (mesh, densities) ->
  length densities = length (vertices mesh) ->
  (forall d, In d densities -> F64.eqb d d0 = true) ->
  exists mesh' : TriangleMesh,
    (create_mesh_from_point_cloud o3d pcd s).1 = Normal mesh' /\
    vertices mesh' = vertices mesh.
Proof.
  intros Hmask Hen Hon Hp Hlen Heq.
  destruct densities as [|d ds] eqn:Hds.
  { exists mesh. split; [|done].
    unfold create_mesh_from_point_cloud, pcd_estimate_normals,
      pcd_orient_normals_consistent_tangent_plane, mesh_create_from_point_cloud_poisson,
      bind, log, lift, ret.
    cbn [fs trace input_path output_path]. by rewrite Hen, Hon, Hp. }
  rewrite <- Hds in *. assert (densities <> []) as Hne by (by rewrite Hds).
  rewrite (create_mesh_filters o3d pcd pcd1 pcd2 mesh densities s) by done.
  set (thr := Np.quantile densities F64.c0_01).
  destruct (Hmask mesh (Np.less densities thr)) as (mesh' & -> & Hv).
  { unfold Np.less. by rewrite length_map. }
  exists mesh'. split; [done|]. rewrite Hv. apply unmasked_none.
  { unfold Np.less. by rewrite length_map. }
  unfold Np.less. apply List.Forall_forall. intros b Hb.
  apply in_map_iff in Hb as (x & <- & Hx).
  apply (quantile_same densities F64.c0_01 x d0); [done | by apply Heq].
Qed.

Lemma equal_densities_remove_nothing_witness :
  exists mesh' : TriangleMesh,
    (create_mesh_from_point_cloud Fake.o3d
       (Fake.decode [Byte.x07; Byte.x07; Byte.x07]) Fake.s0).1 = Normal mesh' /\
    vertices mesh' = points (Fake.decode [Byte.x07; Byte.x07; Byte.x07]).
Proof.
  refine (equal_densities_remove_nothing Fake.o3d
            (Fake.decode [Byte.x07; Byte.x07; Byte.x07])
            (mkPointCloud (points (Fake.decode [Byte.x07; Byte.x07; Byte.x07]))
                          [(0%Q, 0%Q, 1%Q); (0%Q, 0%Q, 1%Q); (0%Q, 0%Q, 1%Q)])
            (mkPointCloud (points (Fake.decode [Byte.x07; Byte.x07; Byte.x07]))
                          [(0%Q, 0%Q, 1%Q); (0%Q, 0%Q, 1%Q); (0%Q, 0%Q, 1%Q)])
            (mkTriangleMesh (points (Fake.decode [Byte.x07; Byte.x07; Byte.x07])) [])
            [F64.of_Z 7; F64.of_Z 7; F64.of_Z 7] (F64.of_Z 7) Fake.s0
            Fake_mask_removes eq_refl eq_refl eq_refl eq_refl _).
  intros d [<-|[<-|[<-|[]]]]; reflexivity.
Defined.

(** ** The client script *)

(** [test_clean_mesh] against this service never overwrites the scan it
    uploads: it writes only when answered 200, which [/clean-mesh] answers
    only to a name that ends in '.ply', and then the path it writes to, the
    name with every '.ply' replaced, is another one.  No file other than
    that one changes, and when the answer is not 200 no file changes. *)
Theorem client_never_overwrites_its_scan
    (rq : Requests) (rt : Runtime) (o3d : Open3D) (srv : St)
    (ply_file_path : string) (c : Client) :
  served_by rt o3d srv rq ->
  client_fs (test_clean_mesh rq ply_file_path c).2 !! ply_file_path
    = client_fs c !! ply_file_path /\
  (forall q, q <> Py.replace ply_file_path ".ply" "_cleaned.ply" ->
     client_fs (test_clean_mesh rq ply_file_path c).2 !! q = client_fs c !! q) /\
  (forall f, client_fs c !! ply_file_path = Some f ->
     http_status (clean_mesh_endpoint rt o3d (mkRequest ply_file_path f (Some "ply")) srv)
       <> 200%Z ->
     client_fs (test_clean_mesh rq ply_file_path c).2 = client_fs c).
Proof.
  intros Hsrv. unfold test_clean_mesh, print. cbn [client_fs stdout].
  destruct (client_fs c !! ply_file_path) as [f|] eqn:Hf; cbn [snd client_fs]; [|done].
  destruct (post_clean_mesh rq ply_file_path f) as [response|e] eqn:Hpost;
    cbn [snd client_fs]; [|by rewrite Hf].
  destruct (Z.eqb (response_status_code response) 200) eqn:Hst; cbn [snd client_fs].
  2: { by rewrite Hf. }
  apply Z.eqb_eq in Hst. rewrite (Hsrv _ _ _ Hpost) in Hst.
  assert (Py.replace ply_file_path ".ply" "_cleaned.ply" <> ply_file_path) as Hdiff.
  { destruct (Py.endswith ply_file_path ".ply") eqn:Hext.
    - apply endswith_spec in Hext as [a ->]. apply replace_ply_differs. simpl. lia.
    - exfalso. unfold clean_mesh_endpoint in Hst. cbn [filename] in Hst.
      rewrite Hext in Hst. discriminate. }
  destruct (open_fault rq _); cbn [snd client_fs].
  { rewrite Hf. split; [done|]. split; [done|]. by intros ? [= <-]. }
  destruct (file_write_fault rq); cbn [snd client_fs].
  - split; [by rewrite lookup_insert_ne, Hf|].
    split; [intros q Hq; by rewrite lookup_insert_ne|]. by intros ? [= <-].
  - split; [by rewrite !lookup_insert_ne, Hf|].
    split; [intros q Hq; by rewrite !lookup_insert_ne|]. by intros ? [= <-].
Qed.

Lemma client_never_overwrites_its_scan_witness :
  client_fs (test_clean_mesh FakeClient.requests "scan.ply"
               (mkClient {["scan.ply" := replicate 1000 Byte.x07]} [])).2 !! "scan.ply"
    = Some (replicate 1000 Byte.x07).
Proof.
  refine (eq_trans
            (proj1 (client_never_overwrites_its_scan FakeClient.requests
                      Fake.rt Fake.o3d_lenient Fake.s0 "scan.ply"
                      (mkClient {["scan.ply" := replicate 1000 Byte.x07]} []) _))
            _).
  - intros filename f response [= <-]. reflexivity.
  - apply lookup_singleton_eq.
Defined.
